(** * templateflow/cli.py: the command-line client, embedded and verified

    The program is sequential glue around external collaborators (the
    template resolution API, the [osf] command-line client, the OSF listing
    API, the local filesystem and DataLad).  The embedding keeps that shape:
    every collaborator is an oracle of a [World], every call that acts on
    the outside is recorded in a trace, and Python exceptions are an
    outcome of the computation. *)

From Stdlib Require Import String Ascii List ZArith Lia Bool Permutation.
From Stdlib Require Import Decimal DecimalString.
From ExtLib Require Import Structures.Monad.
Import ListNotations.
Import MonadNotation.
Local Open Scope string_scope.
Local Open Scope monad_scope.

(** ** Python builtins used by the client *)

Module Py.

(** The one-character string [chr(10)]. *)
Definition nl : string := String "010"%char EmptyString.

(** [s[n:]] *)
Fixpoint slice_from (n : nat) (s : string) : string :=
  match n, s with
  | O, _ => s
  | S _, EmptyString => EmptyString
  | S n', String _ s' => slice_from n' s'
  end.

(** [s.startswith(p)] *)
Definition startswith (p s : string) : bool := String.prefix p s.

(** [sub in s], on strings: [sub] occurs in [s] as a substring. *)
Fixpoint contains (sub s : string) : bool :=
  if String.prefix sub s then true
  else match s with
       | EmptyString => false
       | String _ s' => contains sub s'
       end.

(** [sep.join(l)] *)
Definition join (sep : string) (l : list string) : string :=
  String.concat sep l.

(** [str(n)] for a non-negative integer. *)
Definition str_of_nat (n : nat) : string :=
  NilEmpty.string_of_uint (Nat.to_uint n).

(** The values that travel through argparse namespaces and keyword
    dictionaries. *)
Inductive value : Type :=
| VNone
| VBool (b : bool)
| VStr (s : string)
| VList (l : list string)
| VTuple (l : list string)
| VDict (d : list (string * string)).

(** A [dict] with string keys, in insertion order. *)
Definition dict : Type := list (string * value).

Fixpoint dict_get (k : string) (d : dict) : option value :=
  match d with
  | [] => None
  | (k', v) :: d' => if String.eqb k k' then Some v else dict_get k d'
  end.

Fixpoint dict_del (k : string) (d : dict) : dict :=
  match d with
  | [] => []
  | (k', v) :: d' =>
      if String.eqb k k' then dict_del k d' else (k', v) :: dict_del k d'
  end.

(** Truthiness of an optional string ([None] and the empty string are false). *)
Definition truthy_str (o : option string) : bool :=
  match o with
  | Some (String _ _) => true
  | _ => false
  end.

End Py.

(** ** Exceptions, effects and the computation monad *)

Inductive exn : Type :=
| AssertionError (msg : string)
| RuntimeError (msg : string)
| TypeError (msg : string)
| FileNotFoundError (path : string)
| ExternalError (msg : string).

(** One entry of a remote listing:
    [{attributes: {name, kind}, links: {move, download}}]. *)
Record item : Type := Item {
  attr_name : string;
  attr_kind : string;
  link_move : string;
  link_download : string
}.

(** The calls that act on the outside world, in the order they are made. *)
Inductive event : Type :=
| EPrint (text : string)
| EPrintHelp
| EResolve (template : string) (kwargs : Py.dict)
| ERun (argv : list string)
| EWriteText (path text : string)
| EMkdtemp
| ECopy2 (src dst : string)
| EAddurls (urlfile urlformat filenameformat : string) (message : option string)
| EPublish.

Inductive outcome (A : Type) : Type :=
| Ret (a : A)
| Raise (e : exn)
| OutOfFuel.
Arguments Ret {A} a.
Arguments Raise {A} e.
Arguments OutOfFuel {A}.

(** A computation extends the trace and ends in an outcome; the trace
    survives an exception. *)
Definition M (A : Type) : Type := list event -> outcome A * list event.

Definition m_ret {A} (a : A) : M A := fun t => (Ret a, t).

Definition m_bind {A B} (m : M A) (k : A -> M B) : M B :=
  fun t =>
    match m t with
    | (Ret a, t') => k a t'
    | (Raise e, t') => (Raise e, t')
    | (OutOfFuel, t') => (OutOfFuel, t')
    end.

#[export] Instance Monad_M : Monad M :=
  {| ret := @m_ret; bind := @m_bind |}.

Definition raise {A} (e : exn) : M A := fun t => (Raise e, t).

Definition out_of_fuel {A} : M A := fun t => (OutOfFuel, t).

(** A call that acts on the world: recorded when it is made, whether it
    returns or raises. *)
Definition call {A} (ev : event) (r : exn + A) : M A :=
  fun t =>
    match r with
    | inl e => (Raise e, (t ++ [ev])%list)
    | inr a => (Ret a, (t ++ [ev])%list)
    end.

(** A call that only reads the world: not recorded. *)
Definition query {A} (r : exn + A) : M A :=
  fun t =>
    match r with
    | inl e => (Raise e, t)
    | inr a => (Ret a, t)
    end.

Definition print (text : string) : M unit := fun t => (Ret tt, (t ++ [EPrint text])%list).

Definition run {A} (m : M A) : outcome A * list event := m [].

(** ** The world: the external collaborators of one invocation *)

Record World : Type := {
  (** [os.getenv] *)
  getenv : string -> option string;
  (** [glob.glob] *)
  glob : string -> list string;
  (** [templateflow.api.get]: resolved paths, [None] where unresolved. *)
  tfget : string -> Py.dict -> exn + list (option string);
  (** [subprocess.run], answering with the return code. *)
  sp_run : list string -> exn + Z;
  (** [datalad_osf.utils.url_from_key] *)
  url_from_key : string -> string;
  (** [datalad_osf.utils.json_from_url], answering with the ["data"] list. *)
  json_from_url : string -> exn + list item;
  (** [str(uuid.uuid4())] *)
  uuid4 : string;
  (** [Path.write_text] *)
  write_text : string -> string -> exn + unit;
  (** [tempfile.mkdtemp] *)
  mkdtemp : exn + string;
  (** Whether a path names an existing file, literally. *)
  isfile : string -> bool;
  (** [shutil.copy2] *)
  copy2 : string -> string -> exn + unit;
  (** [datalad.api.addurls], dataset [None]. *)
  addurls : string -> string -> string -> option string -> exn + unit;
  (** [datalad.api.publish] *)
  publish : exn + unit
}.

(** [shutil.copy2] raises [FileNotFoundError] on a source that does not exist. *)
Definition copy2_contract (w : World) : Prop :=
  forall src dst, isfile w src = false -> copy2 w src dst = inl (FileNotFoundError src).

Definition TEMPLATEFLOW_PROJECT_KEY : string := "ue5gx".

Arguments Py.slice_from : simpl never.
Arguments Py.str_of_nat : simpl never.

(** ** [get] *)

(** [[str(f) for f in fls if f]]: the filter is truthiness, so an entry
    that is [None] or the empty string gives no line. *)
Fixpoint printed_paths (fls : list (option string)) : list string :=
  match fls with
  | [] => []
  | f :: fls' =>
      if Py.truthy_str f
      then match f with
           | Some p => p :: printed_paths fls'
           | None => printed_paths fls'
           end
      else printed_paths fls'
  end.

(** The argument of [print] in [get]. *)
Definition get_message (fls : list (option string)) : string :=
  "Got " ++ Py.str_of_nat (length fls) ++ " files"
  ++ (match fls with [] => EmptyString | _ :: _ => ":" ++ Py.nl end)
  ++ Py.join Py.nl (printed_paths fls).

Definition get (w : World) (template : string) (kwargs : Py.dict) : M unit :=
  fls <- call (EResolve (Py.slice_from 4 template) kwargs)
              (tfget w (Py.slice_from 4 template) kwargs) ;;
  print (get_message fls).

(** ** [upload] *)

Record upload_args : Type := UploadArgs {
  template : string;
  files : Py.value;
  force : bool;
  osf_pass : option string;
  osf_dest : option string;
  message : option string
}.

(** Lines 63-67: the loop that extends [osf_cmd] with the file arguments. *)
Fixpoint expand_files (w : World) (fs : list string) (osf_cmd : list string)
  : list string :=
  match fs with
  | [] => osf_cmd
  | f :: fs' =>
      if Py.contains "*" f
      then expand_files w fs' (osf_cmd ++ glob w f)%list
      else expand_files w fs' (osf_cmd ++ [f])%list
  end.

(** Lines 78-82: the first top-level folder named as the template. *)
Fixpoint find_url (tpl : string) (data : list item) : option string :=
  match data with
  | [] => None
  | folder :: data' =>
      if String.eqb (attr_name folder) tpl then Some (link_move folder)
      else find_url tpl data'
  end.

(** Lines 88-97: the work queue.  Each iteration of [while items] takes one
    unit of fuel. *)
Fixpoint walk (w : World) (fuel : nat) (tpl : string) (items : list item)
  (hits : list string) : M (list string) :=
  match fuel with
  | O => out_of_fuel
  | S fuel' =>
      match items with
      | [] => ret hits
      | it :: items' =>
          if String.eqb (attr_kind it) "folder" then
            data <- query (json_from_url w (link_move it)) ;;
            walk w fuel' tpl (items' ++ data)%list hits
          else if Py.contains tpl (attr_name it) then
            walk w fuel' tpl items'
                 (hits ++ [Py.join "," [attr_name it; link_download it]])%list
          else walk w fuel' tpl items' hits
      end
  end.

(** Lines 111-112: the staging loop. *)
Fixpoint stage (w : World) (fs : list string) (tmp : string) : M unit :=
  match fs with
  | [] => ret tt
  | f :: fs' => call (ECopy2 f tmp) (copy2 w f tmp) ;; stage w fs' tmp
  end.

Definition resolve_pass (w : World) (a : upload_args) : option string :=
  match osf_pass a with
  | None => getenv w "OSF_PASSWORD"
  | Some p => Some p
  end.

Definition osf_command (w : World) (a : upload_args) (fs : list string)
  : list string :=
  let osf_cmd := ["osf"; "upload"] in
  let osf_cmd := if force a then (osf_cmd ++ ["-f"])%list else osf_cmd in
  let osf_cmd := expand_files w fs osf_cmd in
  let dest := match osf_dest a with None => template a | Some d => d end in
  (osf_cmd ++ [dest])%list.

Definition output_filename (w : World) : string :=
  "tfupload-" ++ uuid4 w ++ ".csv".

Definition upload (w : World) (fuel : nat) (a : upload_args) : M unit :=
  if negb (Py.truthy_str (resolve_pass w a))
  then raise (AssertionError "OSF password is not set")
  else
    match files a with
    | Py.VList fs =>
        proc <- call (ERun (osf_command w a fs)) (sp_run w (osf_command w a fs)) ;;
        if negb (Z.eqb proc 0) then raise (RuntimeError "OSF upload error")
        else
          data <- query (json_from_url w (url_from_key w TEMPLATEFLOW_PROJECT_KEY)) ;;
          match find_url (template a) data with
          | None =>
              raise (RuntimeError ("No URL found for template " ++ template a))
          | Some url =>
              items <- query (json_from_url w url) ;;
              hits <- walk w fuel (template a) items ["name,link"] ;;
              call (EWriteText (output_filename w) (Py.join Py.nl hits))
                   (write_text w (output_filename w) (Py.join Py.nl hits)) ;;
              tmp <- call EMkdtemp (mkdtemp w) ;;
              stage w fs tmp ;;
              call (EAddurls (output_filename w) "{link}" "{name}" (message a))
                   (addurls w (output_filename w) "{link}" "{name}" (message a)) ;;
              call EPublish (publish w)
          end
    | _ => print "No files given to upload"
    end.

(** ** [main] *)

(** What [parse_args] can produce with the parser of [get_parser]. *)
Inductive Namespace : Type :=
| NoCommand
| GetCommand (tpl : string) (kwargs : list (string * string))
| UploadCommand (tpl : string) (fls : option (list string))
    (pass dest msg : option string) (frc : bool).

(** Lines 125-126. *)
Definition normalize_template (t : string) : string :=
  if Py.startswith "tpl-" t then t else "tpl-" ++ t.

Definition opt_str (o : option string) : Py.value :=
  match o with None => Py.VNone | Some s => Py.VStr s end.

(** [vars(pargs)] *)
Definition vars (pargs : Namespace) : Py.dict :=
  match pargs with
  | NoCommand => [("command", Py.VNone)]
  | GetCommand t kw =>
      [("command", Py.VStr "get"); ("template", Py.VStr t); ("kwargs", Py.VDict kw)]
  | UploadCommand t fs p d m f =>
      [("command", Py.VStr "upload"); ("template", Py.VStr t);
       ("files", match fs with None => Py.VNone | Some l => Py.VList l end);
       ("osf_pass", opt_str p); ("osf_dest", opt_str d);
       ("message", opt_str m); ("force", Py.VBool f)]
  end.

Definition normalized (pargs : Namespace) : Namespace :=
  match pargs with
  | NoCommand => NoCommand
  | GetCommand t kw => GetCommand (normalize_template t) kw
  | UploadCommand t fs p d m f => UploadCommand (normalize_template t) fs p d m f
  end.

Definition as_opt_str (o : option Py.value) : option string :=
  match o with Some (Py.VStr s) => Some s | _ => None end.

(** [get] called with the dictionary [d] unpacked as keyword arguments:
    [template] binds the key of that name, the remaining keys are collected
    as the keyword dictionary [kwargs]. *)
Definition get_kw (w : World) (d : Py.dict) : M unit :=
  match Py.dict_get "template" d with
  | Some (Py.VStr t) => get w t (Py.dict_del "template" d)
  | _ => raise (TypeError "'NoneType' object is not subscriptable")
  end.

(** [upload] called with [d] unpacked as keyword arguments: the named
    parameters bind their keys, or take their defaults; the remaining keys
    are collected and not used. *)
Definition upload_kw (w : World) (fuel : nat) (d : Py.dict) : M unit :=
  match Py.dict_get "template" d with
  | Some (Py.VStr t) =>
      upload w fuel
        {| template := t;
           files := match Py.dict_get "files" d with Some v => v | None => Py.VNone end;
           force := match Py.dict_get "force" d with Some (Py.VBool b) => b | _ => false end;
           osf_pass := as_opt_str (Py.dict_get "osf_pass" d);
           osf_dest := as_opt_str (Py.dict_get "osf_dest" d);
           message := as_opt_str (Py.dict_get "message" d) |}
  | _ => raise (TypeError "template is not a string")
  end.

Definition main (w : World) (fuel : nat) (pargs : Namespace) : M unit :=
  match pargs with
  | NoCommand => fun t => (Ret tt, (t ++ [EPrintHelp])%list)
  | GetCommand _ _ => get_kw w (vars (normalized pargs))
  | UploadCommand _ _ _ _ _ _ => upload_kw w fuel (vars (normalized pargs))
  end.

(** A computation is an extension when it only appends to the trace. *)
Definition extends {A} (m : M A) : Prop :=
  forall t, exists ext, snd (m t) = (t ++ ext)%list.

(** ** Reading a trace *)

(** The command lines of the subprocess calls of a trace. *)
Fixpoint runs (t : list event) : list (list string) :=
  match t with
  | [] => []
  | ERun argv :: t' => argv :: runs t'
  | _ :: t' => runs t'
  end.

(** The calls of steps 2 and 3 of [upload]: manifest write, staging,
    registration and publication. *)
Definition after_lookup (e : event) : bool :=
  match e with
  | EWriteText _ _ | EMkdtemp | ECopy2 _ _ | EAddurls _ _ _ _ | EPublish => true
  | _ => false
  end.

(** [isinstance(v, list)] *)
Definition isinstance_list (v : Py.value) : bool :=
  match v with Py.VList _ => true | _ => false end.

(** ** Remote listings as finite trees *)

(** A remote item together with the listing found behind it. *)
#[warnings="-register-all"]
Inductive rtree : Type :=
| Node (it : item) (children : list rtree).

Definition root (t : rtree) : item :=
  match t with Node it _ => it end.

Definition is_folder (it : item) : bool := String.eqb (attr_kind it) "folder".

(** The listing API of world [w] serves the tree: behind the move link of
    each folder lies the list of its children; files have none. *)
#[warnings="-register-all"]
Inductive Describes (w : World) : rtree -> Prop :=
| Describes_file it :
    is_folder it = false -> Describes w (Node it [])
| Describes_folder it children :
    is_folder it = true ->
    json_from_url w (link_move it) = inr (map root children) ->
    Forall (Describes w) children ->
    Describes w (Node it children).

Fixpoint size (t : rtree) : nat :=
  match t with Node _ children => S (list_sum (map size children)) end.

Definition forest_size (f : list rtree) : nat := list_sum (map size f).

(** The file items of a tree, each occurrence once. *)
Fixpoint file_items (t : rtree) : list item :=
  match t with
  | Node it children =>
      if is_folder it then flat_map file_items children else [it]
  end.

(** The manifest row of a file item. *)
Definition row (it : item) : string := attr_name it ++ "," ++ link_download it.

(** The file items whose name contains the template identifier. *)
Definition matching (tpl : string) (f : list rtree) : list item :=
  filter (fun it => Py.contains tpl (attr_name it)) (flat_map file_items f).

(** What lines 63-67 add to the command for one argument. *)
Definition expansion (w : World) (f : string) : list string :=
  if Py.contains "*" f then glob w f else [f].

(** ** Sample worlds *)

Definition sample_file (name : string) : item :=
  {| attr_name := name; attr_kind := "file";
     link_move := "https://files.osf.io/move/" ++ name;
     link_download := "https://files.osf.io/download/" ++ name |}.

Definition sample_folder (name : string) : item :=
  {| attr_name := name; attr_kind := "folder";
     link_move := "https://files.osf.io/move/" ++ name;
     link_download := EmptyString |}.

(** A project holding the template folder [tpl-test]: two files and a
    sub-folder with one file. *)
Definition sample_forest : list rtree :=
  [ Node (sample_file "tpl-test_T1w.nii.gz") [];
    Node (sample_folder "atlas")
      [ Node (sample_file "tpl-test_atlas-a_dseg.nii.gz") [];
        Node (sample_file "README") [] ];
    Node (sample_file "CHANGES") [] ].

Definition sample_listing (url : string) : exn + list item :=
  if String.eqb url "https://files.osf.io/project/ue5gx" then
    inr [sample_folder "tpl-other"; sample_folder "tpl-test"]
  else if String.eqb url "https://files.osf.io/move/tpl-test" then
    inr (map root sample_forest)
  else if String.eqb url "https://files.osf.io/move/atlas" then
    inr [sample_file "tpl-test_atlas-a_dseg.nii.gz"; sample_file "README"]
  else inl (ExternalError "404").

(** A world parameterised by the environment password, the exit code of the
    [osf] client and the answer of the resolution API. *)
Definition sample_world (env : option string) (rc : Z) (fls : list (option string))
  : World :=
  {| getenv := fun k => if String.eqb k "OSF_PASSWORD" then env else None;
     glob := fun p =>
       if String.eqb p "tpl-test/*.nii.gz" then
         ["tpl-test/tpl-test_T1w.nii.gz"; "tpl-test/tpl-test_atlas-a_dseg.nii.gz"]
       else [];
     tfget := fun _ _ => inr fls;
     sp_run := fun _ => inr rc;
     url_from_key := fun k => "https://files.osf.io/project/" ++ k;
     json_from_url := sample_listing;
     uuid4 := "0b7c5a3e";
     write_text := fun _ _ => inr tt;
     mkdtemp := inr "/tmp/tmpk3q9";
     isfile := fun p => String.eqb p "notes.txt";
     copy2 := fun src _ =>
       if String.eqb src "notes.txt" then inr tt else inl (FileNotFoundError src);
     addurls := fun _ _ _ _ => inr tt;
     publish := inr tt |}.

Definition sample_args (fs : Py.value) (tpl : string) : upload_args :=
  {| template := tpl; files := fs; force := false;
     osf_pass := None; osf_dest := None; message := None |}.

(** An answer of the resolution API with one unresolved entry. *)
Definition sample_paths : list (option string) :=
  [None; Some "/templateflow/tpl-fsLR/tpl-fsLR_desc-nomedialwall_dparc.label.gii"].

(** An answer with an unresolved entry and an empty one. *)
Definition sample_paths_falsy : list (option string) :=
  [Some EmptyString; Some "/templateflow/tpl-fsLR/a.gii"; None;
   Some "/templateflow/tpl-fsLR/b.gii"].

(** ** [StoreDictKeyPair] *)

(** [s.split(sep)] for a separator of one character. *)
Fixpoint split (sep : ascii) (s : string) : list string :=
  match s with
  | EmptyString => [EmptyString]
  | String c s' =>
      if Ascii.eqb c sep then EmptyString :: split sep s'
      else match split sep s' with
           | [] => [String c EmptyString]
           | h :: t => String c h :: t
           end
  end.

(** The number of occurrences of a character. *)
Fixpoint count_char (c : ascii) (s : string) : nat :=
  match s with
  | EmptyString => 0
  | String d s' => (if Ascii.eqb d c then 1 else 0) + count_char c s'
  end.

(** [rdict[k] = v]: an existing key keeps its place and takes the value, a
    new key goes last. *)
Fixpoint setitem (k v : string) (d : list (string * string))
  : list (string * string) :=
  match d with
  | [] => [(k, v)]
  | (k', v') :: d' =>
      if String.eqb k k' then (k', v) :: d' else (k', v') :: setitem k v d'
  end.

(** [rdict.get(k)] *)
Fixpoint getitem (k : string) (d : list (string * string)) : option string :=
  match d with
  | [] => None
  | (k', v) :: d' => if String.eqb k k' then Some v else getitem k d'
  end.

(** The two ways [k, v = kv.split("=")] raises [ValueError]. *)
Inductive ValueError : Type :=
| not_enough_values
| too_many_values.

(** Lines 143-145: the loop over the values of [--kwargs]. *)
Fixpoint store_pairs (values : list string) (rdict : list (string * string))
  : ValueError + list (string * string) :=
  match values with
  | [] => inr rdict
  | kv :: values' =>
      match split "=" kv with
      | [k; v] => store_pairs values' (setitem k v rdict)
      | [] | [_] => inl not_enough_values
      | _ :: _ :: _ :: _ => inl too_many_values
      end
  end.

(** Lines 141-146: the dictionary stored under [kwargs]. *)
Definition StoreDictKeyPair_call (values : list string)
  : ValueError + list (string * string) :=
  store_pairs values [].

(** ** More readings of traces and trees *)

(** The whole trace of an [upload] that runs to its end. *)
Definition full_trace (w : World) (a : upload_args) (fs hits : list string)
  (tmp : string) : list event :=
  ([ERun (osf_command w a fs);
    EWriteText (output_filename w) (Py.join Py.nl hits);
    EMkdtemp]
   ++ map (fun f => ECopy2 f tmp) fs
   ++ [EAddurls (output_filename w) "{link}" "{name}" (message a); EPublish])%list.

Definition children (t : rtree) : list rtree :=
  match t with Node _ ch => ch end.

(** The items of a forest level by level, down to depth [d]. *)
Fixpoint levels (d : nat) (f : list rtree) : list item :=
  match d with
  | O => []
  | S d' => (map root f ++ levels d' (flat_map children f))%list
  end.

(** A file whose name contains the template identifier. *)
Definition file_match (tpl : string) (it : item) : bool :=
  negb (is_folder it) && Py.contains tpl (attr_name it).

(** A listing in which the folder [loop] lists itself. *)
Definition cyclic_listing (url : string) : exn + list item :=
  if String.eqb url "https://files.osf.io/project/ue5gx" then
    inr [sample_folder "tpl-test"]
  else if String.eqb url "https://files.osf.io/move/tpl-test" then
    inr [sample_file "tpl-test_T1w.nii.gz"; sample_folder "loop"]
  else if String.eqb url "https://files.osf.io/move/loop" then
    inr [sample_folder "loop"]
  else inl (ExternalError "404").

Definition cyclic_world : World :=
  {| getenv := fun _ => Some "secret";
     glob := fun _ => [];
     tfget := fun _ _ => inr [];
     sp_run := fun _ => inr 0%Z;
     url_from_key := fun k => "https://files.osf.io/project/" ++ k;
     json_from_url := cyclic_listing;
     uuid4 := "0b7c5a3e";
     write_text := fun _ _ => inr tt;
     mkdtemp := inr "/tmp/tmpk3q9";
     isfile := fun _ => true;
     copy2 := fun _ _ => inr tt;
     addurls := fun _ _ _ _ => inr tt;
     publish := inr tt |}.

(** * Properties *)

(** ** Strings *)

Lemma append_assoc (a b c : string) : (a ++ b) ++ c = a ++ (b ++ c).
Proof.
  induction a as [|ch a IH]; simpl; [reflexivity | now rewrite IH].
Qed.

Lemma append_nil_r (a : string) : a ++ EmptyString = a.
Proof.
  induction a as [|ch a IH]; simpl; [reflexivity | now rewrite IH].
Qed.

(** [String.prefix] decides "begins with". *)
Lemma prefix_iff (p s : string) :
  String.prefix p s = true <-> exists r, s = p ++ r.
Proof.
  revert s; induction p as [|c p IH]; intros s.
  - destruct s; simpl; split; eauto.
  - destruct s as [|d s]; simpl.
    + split; [discriminate | intros [r H]; discriminate].
    + destruct (Ascii.ascii_dec c d) as [->|Hcd].
      * rewrite IH. split; intros [r H]; exists r; congruence.
      * split; [discriminate | intros [r H]; congruence].
Qed.

(** [Py.contains] decides "occurs as a substring". *)
Lemma contains_iff (sub s : string) :
  Py.contains sub s = true <-> exists a b, s = a ++ sub ++ b.
Proof.
  induction s as [|c s IH].
  - cbn [Py.contains]. destruct (String.prefix sub EmptyString) eqn:E.
    + apply prefix_iff in E. destruct E as [r E].
      split; [intros _; exists EmptyString, r; exact E | reflexivity].
    + split; [discriminate|]. intros (a & b & H).
      destruct a; simpl in H.
      * assert (String.prefix sub EmptyString = true) by (apply prefix_iff; eauto).
        congruence.
      * discriminate.
  - cbn [Py.contains]. destruct (String.prefix sub (String c s)) eqn:E.
    + apply prefix_iff in E. destruct E as [r E].
      split; [intros _; exists EmptyString, r; exact E | reflexivity].
    + rewrite IH. split.
      * intros (a & b & H). exists (String c a), b. simpl. now rewrite H.
      * intros (a & b & H). destruct a as [|d a]; simpl in H.
        -- assert (String.prefix sub (String c s) = true)
             by (apply prefix_iff; eauto).
           congruence.
        -- exists a, b. congruence.
Qed.

(** The first line of a joined text is its first entry; every further
    entry follows a line break. *)
Lemma join_lines (h : string) (rows : list string) :
  Py.join Py.nl (h :: rows)
  = h ++ String.concat EmptyString (map (fun r => Py.nl ++ r) rows).
Proof.
  unfold Py.join. revert h; induction rows as [|r rows IH]; intros h.
  - simpl. now rewrite append_nil_r.
  - change (String.concat Py.nl (h :: r :: rows))
      with (h ++ Py.nl ++ String.concat Py.nl (r :: rows)).
    rewrite IH. f_equal.
    destruct rows as [|r' rows]; simpl.
    + now rewrite append_nil_r.
    + reflexivity.
Qed.

(** ** The computation monad *)

Lemma bind_eq {A B} (m : M A) (k : A -> M B) (t : list event) :
  bind m k t
  = match m t with
    | (Ret a, t') => k a t'
    | (Raise e, t') => (Raise e, t')
    | (OutOfFuel, t') => (OutOfFuel, t')
    end.
Proof. reflexivity. Qed.

Lemma bind_call_ok {A B} (ev : event) (r : exn + A) (a : A) (k : A -> M B) t :
  r = inr a -> bind (call ev r) k t = k a (t ++ [ev])%list.
Proof. intros ->. reflexivity. Qed.

Lemma bind_call_raise {A B} (ev : event) (r : exn + A) (e : exn) (k : A -> M B) t :
  r = inl e -> bind (call ev r) k t = (Raise e, (t ++ [ev])%list).
Proof. intros ->. reflexivity. Qed.

Lemma bind_query_ok {A B} (r : exn + A) (a : A) (k : A -> M B) t :
  r = inr a -> bind (query r) k t = k a t.
Proof. intros ->. reflexivity. Qed.

Lemma bind_query_raise {A B} (r : exn + A) (e : exn) (k : A -> M B) t :
  r = inl e -> bind (query r) k t = (Raise e, t).
Proof. intros ->. reflexivity. Qed.

Lemma extends_ret {A} (a : A) : extends (ret a).
Proof. intros t; exists []; simpl; now rewrite app_nil_r. Qed.

Lemma extends_raise {A} (e : exn) : extends (@raise A e).
Proof. intros t; exists []; simpl; now rewrite app_nil_r. Qed.

Lemma extends_out_of_fuel {A} : extends (@out_of_fuel A).
Proof. intros t; exists []; simpl; now rewrite app_nil_r. Qed.

Lemma extends_call {A} (ev : event) (r : exn + A) : extends (call ev r).
Proof. intros t; exists [ev]; unfold call; now destruct r. Qed.

Lemma extends_query {A} (r : exn + A) : extends (query r).
Proof.
  intros t; exists []; unfold query; destruct r; simpl; now rewrite app_nil_r.
Qed.

Lemma extends_print (s : string) : extends (print s).
Proof. intros t; exists [EPrint s]; reflexivity. Qed.

Lemma extends_bind {A B} (m : M A) (k : A -> M B) :
  extends m -> (forall a, extends (k a)) -> extends (bind m k).
Proof.
  intros Hm Hk t. simpl. unfold m_bind.
  destruct (Hm t) as [e1 H1].
  destruct (m t) as [[a|e|] t'] eqn:E; simpl in H1; subst t'.
  - destruct (Hk a (t ++ e1)%list) as [e2 H2].
    exists (e1 ++ e2)%list. now rewrite H2, app_assoc.
  - now exists e1.
  - now exists e1.
Qed.

Create HintDb extends.

#[local] Hint Resolve extends_ret extends_raise extends_out_of_fuel
  extends_call extends_query extends_print : extends.

Ltac extends_tac :=
  repeat first
    [ apply extends_bind; [| intros ?]
    | solve [auto with extends]
    | match goal with
      | |- extends (if ?b then _ else _) => destruct b
      | |- extends (match ?x with _ => _ end) => destruct x
      end ].

Lemma extends_walk (w : World) (fuel : nat) (tpl : string) :
  forall items hits, extends (walk w fuel tpl items hits).
Proof.
  induction fuel as [|fuel IH]; intros items hits; simpl.
  - auto with extends.
  - destruct items as [|it items]; [auto with extends|].
    destruct (String.eqb (attr_kind it) "folder").
    + apply extends_bind; [auto with extends | intros data; apply IH].
    + destruct (Py.contains tpl (attr_name it)); apply IH.
Qed.

Lemma extends_stage (w : World) (tmp : string) (fs : list string) :
  extends (stage w fs tmp).
Proof.
  induction fs as [|f fs IH]; simpl; [auto with extends|].
  apply extends_bind; [auto with extends | intros _; exact IH].
Qed.

#[local] Hint Resolve extends_walk extends_stage : extends.

Lemma extends_upload (w : World) (fuel : nat) (a : upload_args) :
  extends (upload w fuel a).
Proof.
  unfold upload. extends_tac.
Qed.

(** ** [main]: the template prefix *)

(** C5. A template argument that begins with [tpl-] is left as it is; any
    other argument is normalized to [tpl-] followed by the argument. *)
Theorem normalize_template_prefix (t : string) :
  ((exists r, t = "tpl-" ++ r) -> normalize_template t = t) /\
  ((forall r, t <> "tpl-" ++ r) -> normalize_template t = "tpl-" ++ t).
Proof.
  unfold normalize_template, Py.startswith.
  destruct (String.prefix "tpl-" t) eqn:E; split; intros H; try reflexivity.
  - apply prefix_iff in E. destruct E as [r E]. now destruct (H r).
  - apply prefix_iff in H. congruence.
Qed.

Lemma normalize_template_prefix_witness :
  normalize_template "fsLR" = "tpl-fsLR"
  /\ normalize_template "tpl-fsLR" = "tpl-fsLR".
Proof.
  split.
  - apply (proj2 (normalize_template_prefix "fsLR")).
    intros r H. discriminate H.
  - apply (proj1 (normalize_template_prefix "tpl-fsLR")).
    exists "fsLR". reflexivity.
Defined.

(** ** [get] *)

(** Called directly with no keyword argument, [get] hands the resolution
    API an empty keyword mapping. *)
Lemma get_direct_no_filters (w : World) (tpl : string) :
  exists rest,
    snd (run (get w tpl [])) = EResolve (Py.slice_from 4 tpl) [] :: rest.
Proof.
  unfold run, get.
  destruct (tfget w (Py.slice_from 4 tpl) []) as [e|fls];
    eexists; reflexivity.
Qed.

(** C3. Run through [main] without [--kwargs], the [get] subcommand hands
    the resolution API a keyword mapping with two keys, [command] and
    [kwargs]: the whole namespace but [template] is forwarded, and the
    parsed filters stay nested under [kwargs]. *)
Theorem get_subcommand_forwards_namespace (w : World) (fuel : nat) (t : string) :
  exists rest,
    snd (run (main w fuel (GetCommand t [])))
    = EResolve (Py.slice_from 4 (normalize_template t))
               [("command", Py.VStr "get"); ("kwargs", Py.VDict [])] :: rest
    /\ [("command", Py.VStr "get"); ("kwargs", Py.VDict [])] <> ([] : Py.dict).
Proof.
  unfold run, main. cbn [normalized vars get_kw Py.dict_get Py.dict_del String.eqb].
  cbn. unfold get.
  destruct (tfget w (Py.slice_from 4 (normalize_template t))
              [("command", Py.VStr "get"); ("kwargs", Py.VDict [])])
    as [e|fls];
    eexists; (split; [reflexivity | discriminate]).
Qed.

Lemma printed_paths_filter (fls : list (option string)) :
  map Some (printed_paths fls) = filter Py.truthy_str fls.
Proof.
  induction fls as [|[[|c p]|] fls IH]; cbn [printed_paths Py.truthy_str filter map];
    [reflexivity | exact IH | now rewrite IH | exact IH].
Qed.

Lemma printed_paths_length (fls : list (option string)) :
  length fls
  = length (printed_paths fls)
    + length (filter (fun f => negb (Py.truthy_str f)) fls).
Proof.
  induction fls as [|[[|c p]|] fls IH];
    cbn [printed_paths Py.truthy_str filter negb length]; lia.
Qed.

(** C4, as the code has it. [get] prints [Got N files] where N is the
    length of the sequence the resolution API returned, entries that are
    [None] or empty included; when the sequence is not empty a colon and the
    other paths follow, one per line.  N is the number of path lines when no
    entry is [None] or empty; an empty sequence prints [Got 0 files]
    alone. *)
Theorem get_prints_length_and_paths
  (w : World) (tpl : string) (kw : Py.dict) (fls : list (option string)) :
  tfget w (Py.slice_from 4 tpl) kw = inr fls ->
  exists text,
    run (get w tpl kw)
    = (Ret tt, [EResolve (Py.slice_from 4 tpl) kw; EPrint text])
    /\ (fls = [] -> text = "Got 0 files")
    /\ (fls <> [] ->
        text = "Got " ++ Py.str_of_nat (length fls) ++ " files:" ++ Py.nl
               ++ Py.join Py.nl (printed_paths fls))
    /\ map Some (printed_paths fls) = filter Py.truthy_str fls
    /\ length fls
       = length (printed_paths fls)
         + length (filter (fun f => negb (Py.truthy_str f)) fls)
    /\ (Forall (fun f => f <> None /\ f <> Some EmptyString) fls ->
        length (printed_paths fls) = length fls).
Proof.
  intros H. exists (get_message fls). repeat split.
  - unfold run, get. now rewrite (bind_call_ok _ _ fls) by exact H.
  - intros ->. reflexivity.
  - intros Hne. destruct fls as [|f fls]; [congruence | reflexivity].
  - apply printed_paths_filter.
  - apply printed_paths_length.
  - intros Hall. clear H.
    induction Hall as [|f l [Hn He] Hl IH]; [reflexivity|].
    destruct f as [[|c p]|];
      [now destruct He | cbn [printed_paths Py.truthy_str length]; now rewrite IH
      | now destruct Hn].
Qed.

Lemma get_prints_length_and_paths_witness :
  exists text,
    run (get (sample_world None 0 sample_paths_falsy) "tpl-fsLR" [])
    = (Ret tt, [EResolve "fsLR" []; EPrint text])
    /\ (sample_paths_falsy = [] -> text = "Got 0 files")
    /\ (sample_paths_falsy <> [] ->
        text = "Got " ++ Py.str_of_nat (length sample_paths_falsy) ++ " files:"
               ++ Py.nl ++ Py.join Py.nl (printed_paths sample_paths_falsy))
    /\ map Some (printed_paths sample_paths_falsy)
       = filter Py.truthy_str sample_paths_falsy
    /\ length sample_paths_falsy
       = length (printed_paths sample_paths_falsy)
         + length (filter (fun f => negb (Py.truthy_str f)) sample_paths_falsy)
    /\ (Forall (fun f => f <> None /\ f <> Some EmptyString) sample_paths_falsy ->
        length (printed_paths sample_paths_falsy) = length sample_paths_falsy).
Proof.
  apply (get_prints_length_and_paths
           (sample_world None 0 sample_paths_falsy) "tpl-fsLR" []
           sample_paths_falsy).
  reflexivity.
Defined.

(** An empty entry and an unresolved one are counted and not printed. *)
Example sample_get_falsy_entries :
  run (get (sample_world None 0 sample_paths_falsy) "tpl-fsLR" [])
  = (Ret tt,
     [EResolve "fsLR" [];
      EPrint ("Got 4 files:" ++ Py.nl ++ "/templateflow/tpl-fsLR/a.gii"
              ++ Py.nl ++ "/templateflow/tpl-fsLR/b.gii")]).
Proof. reflexivity. Qed.

(** C4, as stated, fails: the API answers with one unresolved entry and one
    path; the line printed says 2 files and one path line follows. *)
Lemma get_count_counterexample :
  run (get (sample_world None 0 sample_paths) "tpl-fsLR" [])
  = (Ret tt,
     [EResolve "fsLR" [];
      EPrint ("Got 2 files:" ++ Py.nl
              ++ "/templateflow/tpl-fsLR/tpl-fsLR_desc-nomedialwall_dparc.label.gii")])
  /\ length (printed_paths sample_paths) = 1
  /\ get_message sample_paths
     <> "Got " ++ Py.str_of_nat (length (printed_paths sample_paths)) ++ " files:"
        ++ Py.nl ++ Py.join Py.nl (printed_paths sample_paths).
Proof.
  split; [reflexivity | split; [reflexivity | discriminate]].
Qed.

(** ** [upload]: validation and the subprocess call *)

Lemma expand_files_flat_map (w : World) (fs : list string) :
  forall osf_cmd,
    expand_files w fs osf_cmd = (osf_cmd ++ flat_map (expansion w) fs)%list.
Proof.
  induction fs as [|f fs IH]; intros osf_cmd; simpl.
  - now rewrite app_nil_r.
  - unfold expansion at 1.
    destruct (Py.contains "*" f); rewrite IH, <- app_assoc; reflexivity.
Qed.

Lemma osf_command_eq (w : World) (a : upload_args) (fs : list string) :
  osf_command w a fs
  = (["osf"; "upload"] ++ (if force a then ["-f"] else [])
     ++ flat_map (expansion w) fs
     ++ [match osf_dest a with None => template a | Some d => d end])%list.
Proof.
  unfold osf_command. rewrite expand_files_flat_map.
  destruct (force a); simpl; reflexivity.
Qed.

(** With every expansion empty, only the literal arguments remain. *)
Lemma expansion_no_match (w : World) (fs : list string) :
  (forall f, In f fs -> Py.contains "*" f = true -> glob w f = []) ->
  flat_map (expansion w) fs = filter (fun f => negb (Py.contains "*" f)) fs.
Proof.
  induction fs as [|f fs IH]; intros H; simpl; [reflexivity|].
  rewrite IH by (intros g Hg; apply H; now right).
  unfold expansion. destruct (Py.contains "*" f) eqn:E; simpl; [|reflexivity].
  now rewrite (H f (or_introl eq_refl) E).
Qed.

Lemma bind_call_first {A B} (ev : event) (r : exn + A) (k : A -> M B) :
  (forall a, extends (k a)) ->
  exists rest, snd (bind (call ev r) k []) = ev :: rest.
Proof.
  intros Hk. rewrite bind_eq. unfold call. destruct r as [e|a]; cbn [Datatypes.app].
  - now exists [].
  - destruct (Hk a [ev]) as [ext H]. exists ext. exact H.
Qed.

Lemma upload_with_list (w : World) (fuel : nat) (a : upload_args) (fs : list string) :
  Py.truthy_str (resolve_pass w a) = true ->
  files a = Py.VList fs ->
  exists rest,
    snd (run (upload w fuel a)) = ERun (osf_command w a fs) :: rest.
Proof.
  intros Hp Hf. unfold run, upload. rewrite Hp, Hf. cbn [negb].
  apply bind_call_first. intros rc. extends_tac.
Qed.

(** C9. The credential check comes before the file-list check: when
    neither [osf_pass] nor [OSF_PASSWORD] gives a non-empty password,
    [upload] raises the assertion failure, whatever [files] is, and nothing
    has been done or printed by then. *)
Theorem credential_check_comes_first (w : World) (fuel : nat) (a : upload_args) :
  (osf_pass a = None \/ osf_pass a = Some EmptyString) ->
  (getenv w "OSF_PASSWORD" = None \/ getenv w "OSF_PASSWORD" = Some EmptyString) ->
  run (upload w fuel a) = (Raise (AssertionError "OSF password is not set"), []).
Proof.
  intros Hp He. unfold run, upload, resolve_pass.
  destruct Hp as [-> | ->]; [destruct He as [-> | ->] |]; reflexivity.
Qed.

Lemma credential_check_comes_first_witness :
  files (sample_args Py.VNone "tpl-test") = Py.VNone
  /\ run (upload (sample_world None 0 []) 0 (sample_args Py.VNone "tpl-test"))
     = (Raise (AssertionError "OSF password is not set"), []).
Proof.
  split; [reflexivity|].
  apply (credential_check_comes_first
           (sample_world None 0 []) 0 (sample_args Py.VNone "tpl-test"));
    left; reflexivity.
Defined.

(** C2, as the code has it. With a password at hand, an [upload] whose
    [files] is [None] or anything else that is not a list prints its notice,
    runs no subprocess and returns. *)
Theorem upload_without_list_returns (w : World) (fuel : nat) (a : upload_args) :
  Py.truthy_str (resolve_pass w a) = true ->
  files a = Py.VNone \/ isinstance_list (files a) = false ->
  run (upload w fuel a) = (Ret tt, [EPrint "No files given to upload"])
  /\ runs (snd (run (upload w fuel a))) = [].
Proof.
  intros Hp Hf.
  assert (E : run (upload w fuel a) = (Ret tt, [EPrint "No files given to upload"])).
  { unfold run, upload. rewrite Hp. cbn [negb].
    destruct Hf as [-> | Hf]; [reflexivity|].
    destruct (files a); try reflexivity; discriminate Hf. }
  rewrite E. split; reflexivity.
Qed.

Lemma upload_without_list_returns_witness :
  run (upload (sample_world (Some "secret") 0 []) 0
         (sample_args (Py.VTuple ["notes.txt"]) "tpl-test"))
  = (Ret tt, [EPrint "No files given to upload"])
  /\ runs (snd (run (upload (sample_world (Some "secret") 0 []) 0
                       (sample_args (Py.VTuple ["notes.txt"]) "tpl-test")))) = [].
Proof.
  apply (upload_without_list_returns (sample_world (Some "secret") 0 []) 0
           (sample_args (Py.VTuple ["notes.txt"]) "tpl-test")).
  - reflexivity.
  - right. reflexivity.
Defined.

(** C2, as stated, fails on the empty list: the guard lets it through, the
    [osf] client is run with no file argument, and its failure is raised. *)
Lemma upload_empty_list_counterexample :
  Py.truthy_str (resolve_pass (sample_world (Some "secret") 1 [])
                   (sample_args (Py.VList []) "tpl-test")) = true
  /\ files (sample_args (Py.VList []) "tpl-test") = Py.VList []
  /\ run (upload (sample_world (Some "secret") 1 []) 0
            (sample_args (Py.VList []) "tpl-test"))
     = (Raise (RuntimeError "OSF upload error"), [ERun ["osf"; "upload"; "tpl-test"]])
  /\ ~ (fst (run (upload (sample_world (Some "secret") 1 []) 0
                    (sample_args (Py.VList []) "tpl-test"))) = Ret tt
        /\ runs (snd (run (upload (sample_world (Some "secret") 1 []) 0
                             (sample_args (Py.VList []) "tpl-test")))) = []).
Proof.
  repeat split; try reflexivity.
  intros [H _]. discriminate H.
Qed.

(** C6. The command line of the subprocess is [osf upload], the force flag
    if asked for, then for each file argument in order its glob expansion
    when it contains [*] and the argument itself otherwise, then the
    destination.  The call is made whatever the expansions are: when none
    yields a match, only the literal arguments are left. *)
Theorem upload_command_expands_globs
  (w : World) (fuel : nat) (a : upload_args) (fs : list string) :
  Py.truthy_str (resolve_pass w a) = true ->
  files a = Py.VList fs ->
  exists rest,
    snd (run (upload w fuel a))
    = ERun (["osf"; "upload"] ++ (if force a then ["-f"] else [])
            ++ flat_map (fun f => if Py.contains "*" f then glob w f else [f]) fs
            ++ [match osf_dest a with None => template a | Some d => d end])%list
      :: rest
    /\ ((forall f, In f fs -> Py.contains "*" f = true -> glob w f = []) ->
        flat_map (fun f => if Py.contains "*" f then glob w f else [f]) fs
        = filter (fun f => negb (Py.contains "*" f)) fs).
Proof.
  intros Hp Hf.
  destruct (upload_with_list w fuel a fs Hp Hf) as [rest H].
  exists rest. split.
  - rewrite H, osf_command_eq. reflexivity.
  - apply expansion_no_match.
Qed.

Lemma upload_command_expands_globs_witness :
  exists rest,
    snd (run (upload (sample_world (Some "secret") 0 []) 9
                (sample_args (Py.VList ["notes.txt"; "tpl-test/*.nii.gz"; "nothing*"])
                   "tpl-test")))
    = ERun ["osf"; "upload"; "notes.txt"; "tpl-test/tpl-test_T1w.nii.gz";
            "tpl-test/tpl-test_atlas-a_dseg.nii.gz"; "tpl-test"] :: rest.
Proof.
  destruct (upload_command_expands_globs (sample_world (Some "secret") 0 []) 9
              (sample_args (Py.VList ["notes.txt"; "tpl-test/*.nii.gz"; "nothing*"])
                 "tpl-test")
              ["notes.txt"; "tpl-test/*.nii.gz"; "nothing*"]
              eq_refl eq_refl) as [rest [H _]].
  exists rest. exact H.
Defined.

(** C8. When the [osf] client exits with a non-zero code, [upload] raises
    the runtime error, and the subprocess call is all it has done. *)
Theorem upload_fails_on_nonzero_exit
  (w : World) (fuel : nat) (a : upload_args) (fs : list string) (rc : Z) :
  Py.truthy_str (resolve_pass w a) = true ->
  files a = Py.VList fs ->
  sp_run w (osf_command w a fs) = inr rc ->
  rc <> 0%Z ->
  run (upload w fuel a)
  = (Raise (RuntimeError "OSF upload error"), [ERun (osf_command w a fs)]).
Proof.
  intros Hp Hf Hrun Hrc. unfold run, upload. rewrite Hp, Hf. cbn [negb].
  rewrite (bind_call_ok _ _ rc) by exact Hrun.
  apply Z.eqb_neq in Hrc. rewrite Hrc. reflexivity.
Qed.

Lemma upload_fails_on_nonzero_exit_witness :
  run (upload (sample_world (Some "secret") 2 []) 9
         (sample_args (Py.VList ["notes.txt"]) "tpl-test"))
  = (Raise (RuntimeError "OSF upload error"),
     [ERun ["osf"; "upload"; "notes.txt"; "tpl-test"]]).
Proof.
  apply (upload_fails_on_nonzero_exit (sample_world (Some "secret") 2 []) 9
           (sample_args (Py.VList ["notes.txt"]) "tpl-test") ["notes.txt"] 2%Z);
    [reflexivity | reflexivity | reflexivity | discriminate].
Defined.

(** ** [upload]: the destination lookup *)

Lemma find_url_none (tpl : string) (data : list item) :
  (forall it, In it data -> attr_name it <> tpl) -> find_url tpl data = None.
Proof.
  induction data as [|it data IH]; intros H; simpl; [reflexivity|].
  destruct (String.eqb_spec (attr_name it) tpl) as [E|_].
  - destruct (H it (or_introl eq_refl) E).
  - apply IH. intros it' Hin. apply H. now right.
Qed.

(** C7. When no entry of the project's top-level listing is named as the
    template, an [upload] that got as far as the lookup raises the runtime
    error with the subprocess call as its only action; and no such
    invocation, however it ends, writes a manifest, stages a copy, registers
    or publishes, or runs a second subprocess. *)
Theorem missing_template_folder_is_fatal
  (w : World) (fuel : nat) (a : upload_args) (data : list item) :
  json_from_url w (url_from_key w TEMPLATEFLOW_PROJECT_KEY) = inr data ->
  (forall it, In it data -> attr_name it <> template a) ->
  (forall fs,
      Py.truthy_str (resolve_pass w a) = true ->
      files a = Py.VList fs ->
      sp_run w (osf_command w a fs) = inr 0%Z ->
      run (upload w fuel a)
      = (Raise (RuntimeError ("No URL found for template " ++ template a)),
         [ERun (osf_command w a fs)]))
  /\ forallb (fun e => negb (after_lookup e)) (snd (run (upload w fuel a))) = true
  /\ length (runs (snd (run (upload w fuel a)))) <= 1.
Proof.
  intros Hjson Hnone. pose proof (find_url_none _ _ Hnone) as Hfind.
  split.
  - intros fs Hp Hf Hrun. unfold run, upload. rewrite Hp, Hf. cbn [negb].
    rewrite (bind_call_ok _ _ 0%Z) by exact Hrun. cbn [Z.eqb negb].
    rewrite (bind_query_ok _ data) by exact Hjson.
    rewrite Hfind. reflexivity.
  - unfold run, upload.
    destruct (Py.truthy_str (resolve_pass w a)); cbn [negb]; [|split; simpl; lia].
    destruct (files a) as [| | |fs| |]; try (split; simpl; lia).
    destruct (sp_run w (osf_command w a fs)) as [e|rc] eqn:Hrun.
    + rewrite (bind_call_raise _ _ e) by reflexivity. split; simpl; lia.
    + rewrite (bind_call_ok _ _ rc) by reflexivity.
      destruct (negb (rc =? 0)%Z); [split; simpl; lia|].
      rewrite (bind_query_ok _ data) by exact Hjson.
      rewrite Hfind. split; simpl; lia.
Qed.

Lemma missing_template_folder_is_fatal_witness :
  run (upload (sample_world (Some "secret") 0 []) 9
         (sample_args (Py.VList ["notes.txt"]) "tpl-absent"))
  = (Raise (RuntimeError "No URL found for template tpl-absent"),
     [ERun ["osf"; "upload"; "notes.txt"; "tpl-absent"]]).
Proof.
  apply (proj1 (missing_template_folder_is_fatal
                  (sample_world (Some "secret") 0 []) 9
                  (sample_args (Py.VList ["notes.txt"]) "tpl-absent")
                  [sample_folder "tpl-other"; sample_folder "tpl-test"]
                  eq_refl
                  (fun it Hin =>
                     match Hin with
                     | or_introl E => fun H => ltac:(subst it; discriminate H)
                     | or_intror (or_introl E) => fun H => ltac:(subst it; discriminate H)
                     | or_intror (or_intror F) => match F with end
                     end))
           ["notes.txt"] eq_refl eq_refl eq_refl).
Defined.

(** ** [upload]: the link manifest *)

Lemma walk_nil (w : World) (fuel : nat) (tpl : string) (hits : list string) t :
  walk w (S fuel) tpl [] hits t = (Ret hits, t).
Proof. reflexivity. Qed.

Lemma walk_cons (w : World) (fuel : nat) (tpl : string) (it : item)
  (items : list item) (hits : list string) :
  walk w (S fuel) tpl (it :: items) hits
  = if is_folder it then
      data <- query (json_from_url w (link_move it)) ;;
      walk w fuel tpl (items ++ data)%list hits
    else if Py.contains tpl (attr_name it) then
      walk w fuel tpl items (hits ++ [row it])%list
    else walk w fuel tpl items hits.
Proof. reflexivity. Qed.

Lemma forest_size_app (f g : list rtree) :
  forest_size (f ++ g) = forest_size f + forest_size g.
Proof. unfold forest_size. now rewrite map_app, list_sum_app. Qed.

Lemma matching_app (tpl : string) (f g : list rtree) :
  matching tpl (f ++ g) = (matching tpl f ++ matching tpl g)%list.
Proof. unfold matching. now rewrite flat_map_app, filter_app. Qed.

(** The queue, started on the roots of a finite forest with more fuel than
    the forest has items, empties itself; it makes no recorded call and adds
    to [hits] the rows of the matching files. *)
Lemma walk_forest (w : World) (tpl : string) :
  forall fuel forest hits,
    Forall (Describes w) forest ->
    forest_size forest < fuel ->
    exists rows,
      (forall t,
          walk w fuel tpl (map root forest) hits t = (Ret (hits ++ rows)%list, t))
      /\ Permutation rows (map row (matching tpl forest)).
Proof.
  induction fuel as [|fuel IH]; intros forest hits Hd Hsz; [lia|].
  destruct forest as [|[it children] rest].
  - exists []. rewrite app_nil_r. split; [intros t; apply walk_nil | constructor].
  - inversion Hd as [|? ? Hnode Hrest]; subst.
    change (map root (Node it children :: rest)) with (it :: map root rest).
    change (Node it children :: rest) with ([Node it children] ++ rest)%list.
    rewrite matching_app, map_app.
    assert (Hsz' : S (forest_size children + forest_size rest) < S fuel)
      by exact Hsz.
    clear Hsz.
    inversion Hnode as [? Hkind | ? ? Hkind Hjson Hch]; subst.
    + assert (Hone : matching tpl [Node it []]
                     = if Py.contains tpl (attr_name it) then [it] else []).
      { unfold matching. cbn [flat_map file_items]. rewrite Hkind.
        cbn [Datatypes.app filter]. reflexivity. }
      rewrite Hone. change (forest_size []) with 0 in Hsz'.
      destruct (Py.contains tpl (attr_name it)) eqn:Hc.
      * destruct (IH rest (hits ++ [row it])%list Hrest ltac:(lia))
          as (rows & Hw & Hperm).
        exists (row it :: rows). split.
        -- intros t. rewrite walk_cons, Hkind, Hc, Hw, <- app_assoc. reflexivity.
        -- cbn [map Datatypes.app]. now constructor.
      * destruct (IH rest hits Hrest ltac:(lia)) as (rows & Hw & Hperm).
        exists rows. split; [|exact Hperm].
        intros t. rewrite walk_cons, Hkind, Hc. apply Hw.
    + destruct (IH (rest ++ children)%list hits) as (rows & Hw & Hperm).
      * apply Forall_app. now split.
      * rewrite forest_size_app. lia.
      * exists rows. split.
        -- intros t. rewrite walk_cons, Hkind.
           rewrite (bind_query_ok _ (map root children)) by exact Hjson.
           rewrite <- map_app. apply Hw.
        -- rewrite Hperm, matching_app, map_app.
           assert (Hone : matching tpl [Node it children] = matching tpl children).
           { unfold matching. cbn [flat_map file_items]. rewrite Hkind.
             now rewrite app_nil_r. }
           rewrite Hone. apply Permutation_app_comm.
Qed.

Lemma bind_call_next {A B} (ev : event) (r : exn + A) (k : A -> M B) t :
  (forall a, extends (k a)) ->
  exists rest, snd (bind (call ev r) k t) = (t ++ ev :: rest)%list.
Proof.
  intros Hk. rewrite bind_eq. unfold call. destruct r as [e|a].
  - now exists [].
  - destruct (Hk a (t ++ [ev])%list) as [ext H]. exists ext.
    rewrite H, <- app_assoc. reflexivity.
Qed.

(** C1. For a remote tree that the listing API serves behind the traversal
    root, the traversal ends; the manifest is the header [name,link] as line
    one, followed by one row [name,link] for each file item of the tree,
    nested folders included, whose name contains the template identifier,
    made of its name and its download link; no other row is written.  It is
    the text that [upload] hands to the manifest file, right after the
    subprocess call. *)
Theorem manifest_lists_matching_files
  (w : World) (fuel : nat) (tpl url : string) (forest : list rtree) :
  json_from_url w url = inr (map root forest) ->
  Forall (Describes w) forest ->
  forest_size forest < fuel ->
  exists rows,
    run (items <- query (json_from_url w url) ;;
         walk w fuel tpl items ["name,link"])
    = (Ret ("name,link" :: rows), [])
    /\ Permutation rows (map row (matching tpl forest))
    /\ (forall r,
          In r rows <->
          exists it, In it (flat_map file_items forest)
                     /\ (exists a b, attr_name it = a ++ tpl ++ b)
                     /\ r = attr_name it ++ "," ++ link_download it)
    /\ Py.join Py.nl ("name,link" :: rows)
       = "name,link" ++ String.concat EmptyString (map (fun r => Py.nl ++ r) rows)
    /\ (forall a fs data,
          template a = tpl ->
          Py.truthy_str (resolve_pass w a) = true ->
          files a = Py.VList fs ->
          sp_run w (osf_command w a fs) = inr 0%Z ->
          json_from_url w (url_from_key w TEMPLATEFLOW_PROJECT_KEY) = inr data ->
          find_url tpl data = Some url ->
          exists rest,
            snd (run (upload w fuel a))
            = ERun (osf_command w a fs)
              :: EWriteText (output_filename w) (Py.join Py.nl ("name,link" :: rows))
              :: rest).
Proof.
  intros Hroot Hd Hsz.
  destruct (walk_forest w tpl fuel forest ["name,link"] Hd Hsz)
    as (rows & Hw & Hperm).
  exists rows. repeat split.
  - unfold run. rewrite (bind_query_ok _ (map root forest)) by exact Hroot.
    apply Hw.
  - exact Hperm.
  - intros Hin. apply (Permutation_in _ Hperm) in Hin.
    apply in_map_iff in Hin. destruct Hin as (it & <- & Hin).
    unfold matching in Hin. apply filter_In in Hin. destruct Hin as [Hin Hc].
    exists it. split; [exact Hin|]. split; [now apply contains_iff | reflexivity].
  - intros (it & Hin & Hsub & ->).
    apply (Permutation_in _ (Permutation_sym Hperm)).
    apply in_map_iff. exists it. split; [reflexivity|].
    unfold matching. apply filter_In. split; [exact Hin | now apply contains_iff].
  - apply join_lines.
  - intros a fs data Htpl Hp Hf Hrun Hjson Hfind. subst tpl.
    unfold run, upload. rewrite Hp, Hf. cbn [negb].
    rewrite (bind_call_ok _ _ 0%Z) by exact Hrun.
    cbn [Z.eqb negb Datatypes.app].
    rewrite (bind_query_ok _ data) by exact Hjson. rewrite Hfind.
    rewrite (bind_query_ok _ (map root forest)) by exact Hroot.
    rewrite bind_eq, Hw. cbn [Datatypes.app].
    apply (bind_call_next _ _ _ [ERun (osf_command w a fs)]).
    intros []. extends_tac.
Qed.

Lemma sample_forest_described (env : option string) (rc : Z) fls :
  Forall (Describes (sample_world env rc fls)) sample_forest.
Proof.
  unfold sample_forest.
  repeat first
    [ apply Forall_nil
    | apply Forall_cons
    | apply Describes_file; reflexivity
    | apply Describes_folder; [reflexivity | reflexivity |] ].
Qed.

Lemma manifest_lists_matching_files_witness :
  exists rows,
    run (items <- query (json_from_url (sample_world (Some "secret") 0 [])
                           "https://files.osf.io/move/tpl-test") ;;
         walk (sample_world (Some "secret") 0 []) 6 "tpl-test" items ["name,link"])
    = (Ret ("name,link" :: rows), [])
    /\ Permutation rows (map row (matching "tpl-test" sample_forest))
    /\ (forall r,
          In r rows <->
          exists it, In it (flat_map file_items sample_forest)
                     /\ (exists a b, attr_name it = a ++ "tpl-test" ++ b)
                     /\ r = attr_name it ++ "," ++ link_download it)
    /\ Py.join Py.nl ("name,link" :: rows)
       = "name,link" ++ String.concat EmptyString (map (fun r => Py.nl ++ r) rows)
    /\ (forall a fs data,
          template a = "tpl-test" ->
          Py.truthy_str (resolve_pass (sample_world (Some "secret") 0 []) a) = true ->
          files a = Py.VList fs ->
          sp_run (sample_world (Some "secret") 0 [])
            (osf_command (sample_world (Some "secret") 0 []) a fs) = inr 0%Z ->
          json_from_url (sample_world (Some "secret") 0 [])
            (url_from_key (sample_world (Some "secret") 0 []) TEMPLATEFLOW_PROJECT_KEY)
          = inr data ->
          find_url "tpl-test" data = Some "https://files.osf.io/move/tpl-test" ->
          exists rest,
            snd (run (upload (sample_world (Some "secret") 0 []) 6 a))
            = ERun (osf_command (sample_world (Some "secret") 0 []) a fs)
              :: EWriteText (output_filename (sample_world (Some "secret") 0 []))
                   (Py.join Py.nl ("name,link" :: rows))
              :: rest).
Proof.
  apply (manifest_lists_matching_files (sample_world (Some "secret") 0 []) 6
           "tpl-test" "https://files.osf.io/move/tpl-test" sample_forest).
  - reflexivity.
  - apply sample_forest_described.
  - vm_compute. lia.
Defined.

(** The sample traversal, run: the header, then the two matching files. *)
Example sample_manifest :
  run (items <- query (json_from_url (sample_world (Some "secret") 0 [])
                         "https://files.osf.io/move/tpl-test") ;;
       walk (sample_world (Some "secret") 0 []) 6 "tpl-test" items ["name,link"])
  = (Ret ["name,link";
          "tpl-test_T1w.nii.gz,https://files.osf.io/download/tpl-test_T1w.nii.gz";
          "tpl-test_atlas-a_dseg.nii.gz,https://files.osf.io/download/tpl-test_atlas-a_dseg.nii.gz"],
     []).
Proof. reflexivity. Qed.

(** ** [upload]: staging *)

Lemma stage_stops_at (w : World) (tmp f : string) (e : exn) (post : list string) :
  copy2 w f tmp = inl e ->
  forall pre t,
    (forall g, In g pre -> copy2 w g tmp = inr tt) ->
    stage w (pre ++ f :: post) tmp t
    = (Raise e, (t ++ map (fun g => ECopy2 g tmp) pre ++ [ECopy2 f tmp])%list).
Proof.
  intros Hf. induction pre as [|g pre IH]; intros t Hpre; cbn [Datatypes.app stage map].
  - now rewrite (bind_call_raise _ _ e) by exact Hf.
  - rewrite (bind_call_ok _ _ tt) by (apply Hpre; now left).
    rewrite IH by (intros g' Hg'; apply Hpre; now right).
    now rewrite <- app_assoc.
Qed.

(** With an argument that cannot be copied among them, the staging loop
    raises after trying a first part of the arguments, in order. *)
Lemma stage_raises (w : World) (tmp f : string) (e0 : exn) :
  copy2 w f tmp = inl e0 ->
  forall fs t,
    In f fs ->
    exists e tried rest,
      fs = (tried ++ rest)%list
      /\ stage w fs tmp t = (Raise e, (t ++ map (fun g => ECopy2 g tmp) tried)%list).
Proof.
  intros Hf. induction fs as [|g fs IH]; intros t Hin; [destruct Hin|].
  cbn [stage]. destruct (copy2 w g tmp) as [e|[]] eqn:Hg.
  - exists e, [g], fs. split; [reflexivity|].
    now rewrite (bind_call_raise _ _ e) by reflexivity.
  - destruct Hin as [-> | Hin]; [congruence|].
    destruct (IH (t ++ [ECopy2 g tmp])%list Hin) as (e & tried & rest & -> & Hs).
    exists e, (g :: tried), rest. split; [reflexivity|].
    rewrite (bind_call_ok _ _ tt) by reflexivity. rewrite Hs.
    now rewrite <- app_assoc.
Qed.

Lemma map_copy_inj (tmp : string) (l l' : list string) :
  map (fun g => ECopy2 g tmp) l = map (fun g => ECopy2 g tmp) l' -> l = l'.
Proof.
  revert l'; induction l as [|x l IH]; intros [|y l'] H;
    try discriminate H; [reflexivity|].
  cbn [map] in H. injection H as Hx Hl. subst y. f_equal. now apply IH.
Qed.

(** An [upload] that passes validation, whose subprocess succeeds, whose
    destination is found and whose listing is a finite tree gets to the
    staging loop, having run the subprocess, written the manifest and made
    the temporary directory. *)
Lemma upload_reaches_staging
  (w : World) (fuel : nat) (a : upload_args) (fs : list string)
  (data : list item) (url : string) (forest : list rtree) (tmp : string) :
  Py.truthy_str (resolve_pass w a) = true ->
  files a = Py.VList fs ->
  sp_run w (osf_command w a fs) = inr 0%Z ->
  json_from_url w (url_from_key w TEMPLATEFLOW_PROJECT_KEY) = inr data ->
  find_url (template a) data = Some url ->
  json_from_url w url = inr (map root forest) ->
  Forall (Describes w) forest ->
  forest_size forest < fuel ->
  (forall text, write_text w (output_filename w) text = inr tt) ->
  mkdtemp w = inr tmp ->
  exists rows,
    Permutation rows (map row (matching (template a) forest))
    /\ run (upload w fuel a)
       = (stage w fs tmp ;;
          call (EAddurls (output_filename w) "{link}" "{name}" (message a))
               (addurls w (output_filename w) "{link}" "{name}" (message a)) ;;
          call EPublish (publish w))
           [ERun (osf_command w a fs);
            EWriteText (output_filename w) (Py.join Py.nl ("name,link" :: rows));
            EMkdtemp].
Proof.
  intros Hp Hf Hrun Hjson Hfind Hroot Hd Hsz Hwrite Htmp.
  destruct (walk_forest w (template a) fuel forest ["name,link"] Hd Hsz)
    as (rows & Hw & Hperm).
  exists rows. split; [exact Hperm|].
  unfold run, upload. rewrite Hp, Hf. cbn [negb].
  rewrite (bind_call_ok _ _ 0%Z) by exact Hrun. cbn [Z.eqb negb Datatypes.app].
  rewrite (bind_query_ok _ data) by exact Hjson. rewrite Hfind.
  rewrite (bind_query_ok _ (map root forest)) by exact Hroot.
  rewrite bind_eq, Hw. cbn [Datatypes.app].
  rewrite (bind_call_ok _ _ tt) by apply Hwrite.
  rewrite (bind_call_ok _ _ tmp) by exact Htmp.
  reflexivity.
Qed.

(** C10. The staging loop copies the file arguments as they were given, not
    their expansions.  When one of them contains [*] and names no file, an
    [upload] that gets to the staging raises there, after trying a first
    part of the given arguments in order, and registers and publishes
    nothing; when the arguments before it can be copied, the error is the
    missing file of that very argument.  The subprocess, earlier, had been
    given the argument's expansion in its place. *)
Theorem staging_copies_given_arguments
  (w : World) (fuel : nat) (a : upload_args) (pre post : list string) (f : string)
  (data : list item) (url : string) (forest : list rtree) (tmp : string) :
  copy2_contract w ->
  Py.truthy_str (resolve_pass w a) = true ->
  files a = Py.VList (pre ++ f :: post) ->
  sp_run w (osf_command w a (pre ++ f :: post)) = inr 0%Z ->
  json_from_url w (url_from_key w TEMPLATEFLOW_PROJECT_KEY) = inr data ->
  find_url (template a) data = Some url ->
  json_from_url w url = inr (map root forest) ->
  Forall (Describes w) forest ->
  forest_size forest < fuel ->
  (forall text, write_text w (output_filename w) text = inr tt) ->
  mkdtemp w = inr tmp ->
  Py.contains "*" f = true ->
  isfile w f = false ->
  exists hits e tried rest,
    (pre ++ f :: post)%list = (tried ++ rest)%list
    /\ run (upload w fuel a)
       = (Raise e,
          ([ERun (osf_command w a (pre ++ f :: post));
            EWriteText (output_filename w) (Py.join Py.nl hits); EMkdtemp]
           ++ map (fun g => ECopy2 g tmp) tried)%list)
    /\ ((forall g, In g pre -> copy2 w g tmp = inr tt) ->
        e = FileNotFoundError f /\ tried = (pre ++ [f])%list)
    /\ osf_command w a (pre ++ f :: post)
       = (["osf"; "upload"] ++ (if force a then ["-f"] else [])
          ++ flat_map (fun g => if Py.contains "*" g then glob w g else [g]) pre
          ++ glob w f
          ++ flat_map (fun g => if Py.contains "*" g then glob w g else [g]) post
          ++ [match osf_dest a with None => template a | Some d => d end])%list.
Proof.
  intros Hc Hp Hf Hrun Hjson Hfind Hroot Hd Hsz Hwrite Htmp Hstar Hmiss.
  destruct (upload_reaches_staging w fuel a _ data url forest tmp
              Hp Hf Hrun Hjson Hfind Hroot Hd Hsz Hwrite Htmp)
    as (rows & _ & Hup).
  pose proof (Hc f tmp Hmiss) as Hcopy.
  destruct (stage_raises w tmp f _ Hcopy (pre ++ f :: post)%list
              [ERun (osf_command w a (pre ++ f :: post));
               EWriteText (output_filename w) (Py.join Py.nl ("name,link" :: rows));
               EMkdtemp])
    as (e & tried & rest & Hsplit & Hstage).
  { apply in_or_app. right. now left. }
  exists ("name,link" :: rows), e, tried, rest.
  assert (Hres : run (upload w fuel a)
                 = (Raise e,
                    ([ERun (osf_command w a (pre ++ f :: post));
                      EWriteText (output_filename w)
                        (Py.join Py.nl ("name,link" :: rows)); EMkdtemp]
                     ++ map (fun g => ECopy2 g tmp) tried)%list)).
  { rewrite Hup, bind_eq, Hstage. reflexivity. }
  split; [exact Hsplit|]. split; [exact Hres|]. split.
  - intros Hpre.
    pose proof (stage_stops_at w tmp f _ post Hcopy pre
                  [ERun (osf_command w a (pre ++ f :: post));
                   EWriteText (output_filename w)
                     (Py.join Py.nl ("name,link" :: rows)); EMkdtemp] Hpre)
      as Hstop.
    rewrite Hstage in Hstop. injection Hstop as He Ht.
    change [ECopy2 f tmp] with (map (fun g => ECopy2 g tmp) [f]) in Ht.
    rewrite <- map_app in Ht. apply map_copy_inj in Ht.
    now split.
  - rewrite osf_command_eq, flat_map_app. cbn [flat_map].
    unfold expansion at 2. rewrite Hstar.
    rewrite <- !app_assoc. reflexivity.
Qed.

Lemma sample_copy2_contract (env : option string) (rc : Z) fls :
  copy2_contract (sample_world env rc fls).
Proof.
  intros src dst H. cbn [copy2 isfile sample_world] in *. now rewrite H.
Qed.

Lemma staging_copies_given_arguments_witness :
  exists hits e tried rest,
    (["notes.txt"] ++ "tpl-test/*.nii.gz" :: [])%list = (tried ++ rest)%list
    /\ run (upload (sample_world (Some "secret") 0 []) 6
              (sample_args (Py.VList ["notes.txt"; "tpl-test/*.nii.gz"]) "tpl-test"))
       = (Raise e,
          ([ERun (osf_command (sample_world (Some "secret") 0 [])
                    (sample_args (Py.VList ["notes.txt"; "tpl-test/*.nii.gz"]) "tpl-test")
                    (["notes.txt"] ++ "tpl-test/*.nii.gz" :: []));
            EWriteText (output_filename (sample_world (Some "secret") 0 []))
              (Py.join Py.nl hits);
            EMkdtemp]
           ++ map (fun g => ECopy2 g "/tmp/tmpk3q9") tried)%list)
    /\ ((forall g, In g ["notes.txt"] ->
                   copy2 (sample_world (Some "secret") 0 []) g "/tmp/tmpk3q9" = inr tt) ->
        e = FileNotFoundError "tpl-test/*.nii.gz"
        /\ tried = (["notes.txt"] ++ ["tpl-test/*.nii.gz"])%list)
    /\ osf_command (sample_world (Some "secret") 0 [])
         (sample_args (Py.VList ["notes.txt"; "tpl-test/*.nii.gz"]) "tpl-test")
         (["notes.txt"] ++ "tpl-test/*.nii.gz" :: [])
       = (["osf"; "upload"] ++ []
          ++ flat_map (fun g => if Py.contains "*" g
                                then glob (sample_world (Some "secret") 0 []) g
                                else [g]) ["notes.txt"]
          ++ glob (sample_world (Some "secret") 0 []) "tpl-test/*.nii.gz"
          ++ flat_map (fun g => if Py.contains "*" g
                                then glob (sample_world (Some "secret") 0 []) g
                                else [g]) []
          ++ ["tpl-test"])%list.
Proof.
  apply (staging_copies_given_arguments (sample_world (Some "secret") 0 []) 6
           (sample_args (Py.VList ["notes.txt"; "tpl-test/*.nii.gz"]) "tpl-test")
           ["notes.txt"] [] "tpl-test/*.nii.gz"
           [sample_folder "tpl-other"; sample_folder "tpl-test"]
           "https://files.osf.io/move/tpl-test" sample_forest "/tmp/tmpk3q9").
  - apply sample_copy2_contract.
  - reflexivity.
  - reflexivity.
  - reflexivity.
  - reflexivity.
  - reflexivity.
  - reflexivity.
  - apply sample_forest_described.
  - vm_compute. lia.
  - intros text. reflexivity.
  - reflexivity.
  - reflexivity.
  - reflexivity.
Defined.

(** The sample invocation, run: the subprocess gets the expansion, the
    staging loop the argument as given. *)
Example sample_upload :
  run (upload (sample_world (Some "secret") 0 []) 6
         (sample_args (Py.VList ["notes.txt"; "tpl-test/*.nii.gz"]) "tpl-test"))
  = (Raise (FileNotFoundError "tpl-test/*.nii.gz"),
     [ERun ["osf"; "upload"; "notes.txt"; "tpl-test/tpl-test_T1w.nii.gz";
            "tpl-test/tpl-test_atlas-a_dseg.nii.gz"; "tpl-test"];
      EWriteText "tfupload-0b7c5a3e.csv"
        (Py.join Py.nl
           ["name,link";
            "tpl-test_T1w.nii.gz,https://files.osf.io/download/tpl-test_T1w.nii.gz";
            "tpl-test_atlas-a_dseg.nii.gz,https://files.osf.io/download/tpl-test_atlas-a_dseg.nii.gz"]);
      EMkdtemp;
      ECopy2 "notes.txt" "/tmp/tmpk3q9";
      ECopy2 "tpl-test/*.nii.gz" "/tmp/tmpk3q9"]).
Proof. reflexivity. Qed.

(** With files that exist, the sample invocation runs to the end. *)
Example sample_upload_complete :
  run (upload (sample_world (Some "secret") 0 []) 6
         (sample_args (Py.VList ["notes.txt"]) "tpl-test"))
  = (Ret tt,
     [ERun ["osf"; "upload"; "notes.txt"; "tpl-test"];
      EWriteText "tfupload-0b7c5a3e.csv"
        (Py.join Py.nl
           ["name,link";
            "tpl-test_T1w.nii.gz,https://files.osf.io/download/tpl-test_T1w.nii.gz";
            "tpl-test_atlas-a_dseg.nii.gz,https://files.osf.io/download/tpl-test_atlas-a_dseg.nii.gz"]);
      EMkdtemp;
      ECopy2 "notes.txt" "/tmp/tmpk3q9";
      EAddurls "tfupload-0b7c5a3e.csv" "{link}" "{name}" None;
      EPublish]).
Proof. reflexivity. Qed.

(** The failing invocation of C3, run: [templateflow get fsLR]. *)
Example sample_get_subcommand :
  run (main (sample_world None 0 []) 0 (GetCommand "fsLR" []))
  = (Ret tt,
     [EResolve "fsLR" [("command", Py.VStr "get"); ("kwargs", Py.VDict [])];
      EPrint "Got 0 files"]).
Proof. reflexivity. Qed.

(** * Further properties *)

(** ** [main]: what the subcommands receive *)

Lemma normalize_prefixed (r : string) :
  normalize_template ("tpl-" ++ r) = "tpl-" ++ r.
Proof.
  unfold normalize_template, Py.startswith.
  assert (E : String.prefix "tpl-" ("tpl-" ++ r) = true)
    by (apply prefix_iff; now exists r).
  now rewrite E.
Qed.

Lemma normalize_bare (t : string) :
  (forall r, t <> "tpl-" ++ r) -> normalize_template t = "tpl-" ++ t.
Proof.
  intros H. unfold normalize_template, Py.startswith.
  destruct (String.prefix "tpl-" t) eqn:E; [|reflexivity].
  apply prefix_iff in E. destruct E as [r E]. now destruct (H r).
Qed.

(** X1. The resolution API is asked for the bare template name whether or not
    the user typed the prefix: [get NAME] and [get tpl-NAME] are the same
    run, and its first call names [NAME]. *)
Theorem get_subcommand_resolves_bare_name
  (w : World) (fuel : nat) (name : string) (kw : list (string * string)) :
  (forall r, name <> "tpl-" ++ r) ->
  run (main w fuel (GetCommand ("tpl-" ++ name) kw))
  = run (main w fuel (GetCommand name kw))
  /\ exists kwargs rest,
       snd (run (main w fuel (GetCommand name kw))) = EResolve name kwargs :: rest.
Proof.
  intros Hbare.
  assert (E : main w fuel (GetCommand name kw)
              = main w fuel (GetCommand ("tpl-" ++ name) kw)).
  { unfold main, normalized.
    now rewrite (normalize_bare name Hbare), normalize_prefixed. }
  split; [now rewrite E|]. rewrite E.
  unfold run, main, normalized. rewrite normalize_prefixed.
  change (get_kw w (vars (GetCommand ("tpl-" ++ name) kw)))
    with (get w ("tpl-" ++ name)
            [("command", Py.VStr "get"); ("kwargs", Py.VDict kw)]).
  unfold get. change (Py.slice_from 4 ("tpl-" ++ name)) with name.
  destruct (tfget w name [("command", Py.VStr "get"); ("kwargs", Py.VDict kw)])
    as [e|fls]; do 2 eexists; reflexivity.
Qed.

Lemma get_subcommand_resolves_bare_name_witness :
  run (main (sample_world None 0 sample_paths) 0 (GetCommand ("tpl-" ++ "fsLR") []))
  = run (main (sample_world None 0 sample_paths) 0 (GetCommand "fsLR" []))
  /\ exists kwargs rest,
       snd (run (main (sample_world None 0 sample_paths) 0 (GetCommand "fsLR" [])))
       = EResolve "fsLR" kwargs :: rest.
Proof.
  apply (get_subcommand_resolves_bare_name
           (sample_world None 0 sample_paths) 0 "fsLR" []).
  intros r H. discriminate H.
Defined.

(** X2. Normalizing is idempotent, and a normalized template always begins
    with [tpl-]. *)
Theorem normalize_template_idempotent (t : string) :
  (exists r, normalize_template t = "tpl-" ++ r)
  /\ normalize_template (normalize_template t) = normalize_template t.
Proof.
  destruct (String.prefix "tpl-" t) eqn:E.
  - unfold normalize_template, Py.startswith. rewrite E, E.
    split; [now apply prefix_iff | reflexivity].
  - assert (Ht : normalize_template t = "tpl-" ++ t)
      by (unfold normalize_template, Py.startswith; now rewrite E).
    rewrite Ht, normalize_prefixed. split; [now exists t | reflexivity].
Qed.

Lemma main_upload_eq
  (w : World) (fuel : nat) (t : string) (fs : option (list string))
  (p d m : option string) (f : bool) :
  main w fuel (UploadCommand t fs p d m f)
  = upload w fuel
      {| template := normalize_template t;
         files := match fs with None => Py.VNone | Some l => Py.VList l end;
         force := f; osf_pass := p; osf_dest := d; message := m |}.
Proof. destruct p, d, m; reflexivity. Qed.

(** X3. Through [main], the last argument of the [osf] command is the
    [--osf-dest] option when given, and the normalized template otherwise:
    without the option, files go under a destination that begins with
    [tpl-] even when the user left the prefix out. *)
Theorem upload_subcommand_destination
  (w : World) (fuel : nat) (t : string) (fs : list string)
  (p d m : option string) (f : bool) :
  Py.truthy_str (match p with None => getenv w "OSF_PASSWORD" | Some s => Some s end)
  = true ->
  exists front rest,
    snd (run (main w fuel (UploadCommand t (Some fs) p d m f)))
    = ERun (front ++ [match d with
                      | None => normalize_template t
                      | Some dest => dest
                      end])%list :: rest.
Proof.
  intros Hp. rewrite main_upload_eq.
  match goal with
  | |- context [upload w fuel ?a] =>
      destruct (upload_with_list w fuel a fs Hp eq_refl) as [rest H]
  end.
  rewrite H, osf_command_eq. cbn [osf_dest template force].
  exists (["osf"; "upload"] ++ (if f then ["-f"] else [])
          ++ flat_map (expansion w) fs)%list, rest.
  now rewrite <- !app_assoc.
Qed.

Lemma upload_subcommand_destination_witness :
  exists front rest,
    snd (run (main (sample_world (Some "secret") 0 []) 6
                (UploadCommand "test" (Some ["notes.txt"]) None None None true)))
    = ERun (front ++ [normalize_template "test"])%list :: rest.
Proof.
  apply (upload_subcommand_destination (sample_world (Some "secret") 0 []) 6
           "test" ["notes.txt"] None None None true).
  reflexivity.
Defined.

(** ** [upload]: the password *)

(** X4. An empty [osf_pass] is not replaced by the environment: the
    fallback is for [None] only, so the assertion fails even when
    [OSF_PASSWORD] holds a password. *)
Theorem empty_password_has_no_fallback (w : World) (fuel : nat) (a : upload_args) :
  osf_pass a = Some EmptyString ->
  run (upload w fuel a) = (Raise (AssertionError "OSF password is not set"), []).
Proof.
  intros H. unfold run, upload, resolve_pass. rewrite H. reflexivity.
Qed.

Lemma empty_password_has_no_fallback_witness :
  getenv (sample_world (Some "secret") 0 []) "OSF_PASSWORD" = Some "secret"
  /\ run (upload (sample_world (Some "secret") 0 []) 6
            {| template := "tpl-test"; files := Py.VList ["notes.txt"];
               force := false; osf_pass := Some EmptyString;
               osf_dest := None; message := None |})
     = (Raise (AssertionError "OSF password is not set"), []).
Proof.
  split; [reflexivity|].
  apply (empty_password_has_no_fallback (sample_world (Some "secret") 0 []) 6).
  reflexivity.
Defined.

(** ** [upload]: how a run can end *)

Lemma walk_trace (w : World) (tpl : string) :
  forall fuel items hits t, snd (walk w fuel tpl items hits t) = t.
Proof.
  induction fuel as [|fuel IH]; intros items hits t; [reflexivity|].
  destruct items as [|it items]; [reflexivity|].
  rewrite walk_cons. destruct (is_folder it).
  - rewrite bind_eq. unfold query.
    destruct (json_from_url w (link_move it)); [reflexivity | apply IH].
  - destruct (Py.contains tpl (attr_name it)); apply IH.
Qed.

Lemma stage_cases (w : World) (tmp : string) (fs : list string) :
  forall t,
    (stage w fs tmp t = (Ret tt, (t ++ map (fun f => ECopy2 f tmp) fs)%list)
     /\ forall f, In f fs -> copy2 w f tmp = inr tt)
    \/ (exists e tried rest,
          fs = (tried ++ rest)%list
          /\ stage w fs tmp t
             = (Raise e, (t ++ map (fun f => ECopy2 f tmp) tried)%list)).
Proof.
  induction fs as [|f fs IH]; intros t.
  - left. split; [cbn; now rewrite app_nil_r | intros f []].
  - cbn [stage]. destruct (copy2 w f tmp) as [e|[]] eqn:Hf.
    + right. exists e, [f], fs. split; [reflexivity|].
      now rewrite (bind_call_raise _ _ e) by reflexivity.
    + rewrite (bind_call_ok _ _ tt) by reflexivity.
      destruct (IH (t ++ [ECopy2 f tmp])%list)
        as [[Hs Hall] | (e & tried & rest & -> & Hs)].
      * left. split.
        -- rewrite Hs, <- app_assoc. reflexivity.
        -- intros f' [<- | Hin]; [exact Hf | now apply Hall].
      * right. exists e, (f :: tried), rest. split; [reflexivity|].
        rewrite Hs, <- app_assoc. reflexivity.
Qed.

Lemma publish_not_in_copies (tmp : string) (l : list string) :
  ~ In EPublish (map (fun f => ECopy2 f tmp) l).
Proof.
  intros H. apply in_map_iff in H. destruct H as (f & H & _). discriminate H.
Qed.

Ltac no_publish :=
  solve [
  right; left; split;
  [ intros x Hx; discriminate Hx
  | intros Hin; unfold raise, out_of_fuel in Hin;
    cbn [snd Datatypes.app In] in Hin;
    repeat match goal with
      | H : _ \/ _ |- _ => destruct H as [H|H]
      | H : In _ (_ ++ _)%list |- _ => apply in_app_or in H
      | H : In _ (_ :: _) |- _ => cbn [In] in H
      | H : In _ [] |- _ => destruct H
      | H : False |- _ => destruct H
      | H : _ = EPublish |- _ => discriminate H
      | H : In EPublish (map _ _) |- _ => now apply publish_not_in_copies in H
      end ] ].

(** Every run of [upload] is of one of three kinds: the notice for a
    missing file list; a run that does not return and has not published; or
    a run that got through every step up to the publication. *)
Lemma upload_cases (w : World) (fuel : nat) (a : upload_args) :
  (run (upload w fuel a) = (Ret tt, [EPrint "No files given to upload"])
   /\ isinstance_list (files a) = false)
  \/ ((forall x, fst (run (upload w fuel a)) <> Ret x)
      /\ ~ In EPublish (snd (run (upload w fuel a))))
  \/ (exists fs hits tmp,
        files a = Py.VList fs
        /\ sp_run w (osf_command w a fs) = inr 0%Z
        /\ write_text w (output_filename w) (Py.join Py.nl hits) = inr tt
        /\ mkdtemp w = inr tmp
        /\ (forall f, In f fs -> copy2 w f tmp = inr tt)
        /\ addurls w (output_filename w) "{link}" "{name}" (message a) = inr tt
        /\ run (upload w fuel a)
           = (match publish w with inl e => Raise e | inr _ => Ret tt end,
              full_trace w a fs hits tmp)).
Proof.
  unfold run, upload.
  destruct (negb (Py.truthy_str (resolve_pass w a))); [no_publish|].
  destruct (files a) as [| | |fs| |] eqn:Hfiles;
    try (left; split; reflexivity).
  destruct (sp_run w (osf_command w a fs)) as [e|rc] eqn:Hrun.
  { rewrite (bind_call_raise _ _ e) by reflexivity. no_publish. }
  rewrite (bind_call_ok _ _ rc) by reflexivity. cbn [Datatypes.app].
  destruct (Z.eqb_spec rc 0) as [->|Hrc]; cbn [negb]; [|no_publish].
  destruct (json_from_url w (url_from_key w TEMPLATEFLOW_PROJECT_KEY))
    as [e|data] eqn:Hjson.
  { rewrite (bind_query_raise _ e) by reflexivity. no_publish. }
  rewrite (bind_query_ok _ data) by reflexivity.
  destruct (find_url (template a) data) as [url|]; [|no_publish].
  destruct (json_from_url w url) as [e|items] eqn:Hroot.
  { rewrite (bind_query_raise _ e) by reflexivity. no_publish. }
  rewrite (bind_query_ok _ items) by reflexivity.
  rewrite bind_eq.
  pose proof (walk_trace w (template a) fuel items ["name,link"]
                [ERun (osf_command w a fs)]) as Hwt.
  destruct (walk w fuel (template a) items ["name,link"]
              [ERun (osf_command w a fs)]) as [[hits|e|] t'];
    cbn [snd] in Hwt; subst t'; [|no_publish|no_publish].
  destruct (write_text w (output_filename w) (Py.join Py.nl hits))
    as [e|[]] eqn:Hwrite.
  { rewrite (bind_call_raise _ _ e) by reflexivity. no_publish. }
  rewrite (bind_call_ok _ _ tt) by reflexivity. cbn [Datatypes.app].
  destruct (mkdtemp w) as [e|tmp] eqn:Htmp.
  { rewrite (bind_call_raise _ _ e) by reflexivity. no_publish. }
  rewrite (bind_call_ok _ _ tmp) by reflexivity. cbn [Datatypes.app].
  rewrite bind_eq.
  destruct (stage_cases w tmp fs
              [ERun (osf_command w a fs);
               EWriteText (output_filename w) (Py.join Py.nl hits); EMkdtemp])
    as [[Hs Hall] | (e & tried & rest & Hsplit & Hs)]; rewrite Hs;
    [|no_publish].
  destruct (addurls w (output_filename w) "{link}" "{name}" (message a))
    as [e|[]] eqn:Hadd.
  { rewrite (bind_call_raise _ _ e) by reflexivity. no_publish. }
  rewrite (bind_call_ok _ _ tt) by reflexivity.
  right; right. exists fs, hits, tmp.
  repeat (split; [first [reflexivity | assumption]|]).
  unfold call, full_trace.
  destruct (publish w) as [e|[]]; rewrite <- !app_assoc; reflexivity.
Qed.

Lemma stage_ok (w : World) (tmp : string) (fs : list string) :
  (forall f, In f fs -> copy2 w f tmp = inr tt) ->
  forall t,
    stage w fs tmp t = (Ret tt, (t ++ map (fun f => ECopy2 f tmp) fs)%list).
Proof.
  induction fs as [|f fs IH]; intros Hall t.
  - cbn. now rewrite app_nil_r.
  - cbn [stage map].
    rewrite (bind_call_ok _ _ tt) by (apply Hall; now left).
    rewrite IH by (intros g Hg; apply Hall; now right).
    now rewrite <- app_assoc.
Qed.

(** X6. When every collaborator succeeds and the listing is a finite tree,
    [upload] returns, and its calls are, in this order: the subprocess, the
    manifest write, the temporary directory, one copy per file argument in
    the order given, the registration of the manifest just written with
    the fields [{link}] and [{name}] and the message, and the publication. *)
Theorem upload_runs_every_step_in_order
  (w : World) (fuel : nat) (a : upload_args) (fs : list string)
  (data : list item) (url : string) (forest : list rtree) (tmp : string) :
  Py.truthy_str (resolve_pass w a) = true ->
  files a = Py.VList fs ->
  sp_run w (osf_command w a fs) = inr 0%Z ->
  json_from_url w (url_from_key w TEMPLATEFLOW_PROJECT_KEY) = inr data ->
  find_url (template a) data = Some url ->
  json_from_url w url = inr (map root forest) ->
  Forall (Describes w) forest ->
  forest_size forest < fuel ->
  (forall text, write_text w (output_filename w) text = inr tt) ->
  mkdtemp w = inr tmp ->
  (forall f, In f fs -> copy2 w f tmp = inr tt) ->
  addurls w (output_filename w) "{link}" "{name}" (message a) = inr tt ->
  publish w = inr tt ->
  exists rows,
    Permutation rows (map row (matching (template a) forest))
    /\ run (upload w fuel a)
       = (Ret tt,
          [ERun (osf_command w a fs);
           EWriteText ("tfupload-" ++ uuid4 w ++ ".csv")
             (Py.join Py.nl ("name,link" :: rows));
           EMkdtemp]
          ++ map (fun f => ECopy2 f tmp) fs
          ++ [EAddurls ("tfupload-" ++ uuid4 w ++ ".csv") "{link}" "{name}" (message a);
              EPublish])%list.
Proof.
  intros Hp Hf Hrun Hjson Hfind Hroot Hd Hsz Hwrite Htmp Hcopy Hadd Hpub.
  destruct (upload_reaches_staging w fuel a fs data url forest tmp
              Hp Hf Hrun Hjson Hfind Hroot Hd Hsz Hwrite Htmp)
    as (rows & Hperm & Hup).
  exists rows. split; [exact Hperm|].
  rewrite Hup, bind_eq, (stage_ok w tmp fs Hcopy).
  rewrite (bind_call_ok _ _ tt) by exact Hadd.
  unfold call. rewrite Hpub. unfold output_filename.
  rewrite <- !app_assoc. reflexivity.
Qed.

Lemma upload_runs_every_step_in_order_witness :
  exists rows,
    Permutation rows (map row (matching "tpl-test" sample_forest))
    /\ run (upload (sample_world (Some "secret") 0 []) 6
              (sample_args (Py.VList ["notes.txt"; "notes.txt"]) "tpl-test"))
       = (Ret tt,
          [ERun ["osf"; "upload"; "notes.txt"; "notes.txt"; "tpl-test"];
           EWriteText "tfupload-0b7c5a3e.csv" (Py.join Py.nl ("name,link" :: rows));
           EMkdtemp]
          ++ map (fun f => ECopy2 f "/tmp/tmpk3q9") ["notes.txt"; "notes.txt"]
          ++ [EAddurls "tfupload-0b7c5a3e.csv" "{link}" "{name}" None; EPublish])%list.
Proof.
  apply (upload_runs_every_step_in_order (sample_world (Some "secret") 0 []) 6
           (sample_args (Py.VList ["notes.txt"; "notes.txt"]) "tpl-test")
           ["notes.txt"; "notes.txt"]
           [sample_folder "tpl-other"; sample_folder "tpl-test"]
           "https://files.osf.io/move/tpl-test" sample_forest "/tmp/tmpk3q9").
  - reflexivity.
  - reflexivity.
  - reflexivity.
  - reflexivity.
  - reflexivity.
  - reflexivity.
  - apply sample_forest_described.
  - vm_compute. lia.
  - intros text. reflexivity.
  - reflexivity.
  - intros f [<- | [<- | []]]; reflexivity.
  - reflexivity.
  - reflexivity.
Defined.

(** X7. [upload] publishes only at the end of a run in which everything
    before succeeded: if the publication is in the trace, then the file
    list was a list, the subprocess exited with 0, the manifest was written,
    every file argument was copied, the registration succeeded, and the
    trace is the whole sequence of steps. *)
Theorem publish_only_after_every_step
  (w : World) (fuel : nat) (a : upload_args) :
  In EPublish (snd (run (upload w fuel a))) ->
  exists fs hits tmp,
    files a = Py.VList fs
    /\ sp_run w (osf_command w a fs) = inr 0%Z
    /\ write_text w (output_filename w) (Py.join Py.nl hits) = inr tt
    /\ mkdtemp w = inr tmp
    /\ (forall f, In f fs -> copy2 w f tmp = inr tt)
    /\ addurls w (output_filename w) "{link}" "{name}" (message a) = inr tt
    /\ snd (run (upload w fuel a)) = full_trace w a fs hits tmp.
Proof.
  intros Hin.
  destruct (upload_cases w fuel a)
    as [[Hr _] | [[_ Hno] | (fs & hits & tmp & H1 & H2 & H3 & H4 & H5 & H6 & Hr)]].
  - rewrite Hr in Hin. cbn in Hin. destruct Hin as [Hin | []]. discriminate Hin.
  - now destruct (Hno Hin).
  - exists fs, hits, tmp. rewrite Hr. repeat (split; [assumption|]). reflexivity.
Qed.

Lemma publish_only_after_every_step_witness :
  exists fs hits tmp,
    files (sample_args (Py.VList ["notes.txt"]) "tpl-test") = Py.VList fs
    /\ sp_run (sample_world (Some "secret") 0 [])
         (osf_command (sample_world (Some "secret") 0 [])
            (sample_args (Py.VList ["notes.txt"]) "tpl-test") fs) = inr 0%Z
    /\ write_text (sample_world (Some "secret") 0 [])
         (output_filename (sample_world (Some "secret") 0 []))
         (Py.join Py.nl hits) = inr tt
    /\ mkdtemp (sample_world (Some "secret") 0 []) = inr tmp
    /\ (forall f, In f fs ->
                  copy2 (sample_world (Some "secret") 0 []) f tmp = inr tt)
    /\ addurls (sample_world (Some "secret") 0 [])
         (output_filename (sample_world (Some "secret") 0 []))
         "{link}" "{name}"
         (message (sample_args (Py.VList ["notes.txt"]) "tpl-test")) = inr tt
    /\ snd (run (upload (sample_world (Some "secret") 0 []) 6
                   (sample_args (Py.VList ["notes.txt"]) "tpl-test")))
       = full_trace (sample_world (Some "secret") 0 [])
           (sample_args (Py.VList ["notes.txt"]) "tpl-test") fs hits tmp.
Proof.
  apply (publish_only_after_every_step (sample_world (Some "secret") 0 []) 6
           (sample_args (Py.VList ["notes.txt"]) "tpl-test")).
  vm_compute. do 5 right. left. reflexivity.
Defined.

(** X8. [upload] returns normally in two ways only: with the notice, when
    the file list is not a list, or after the publication, at the end of the
    whole sequence of steps. *)
Theorem upload_returns_in_two_ways
  (w : World) (fuel : nat) (a : upload_args) :
  fst (run (upload w fuel a)) = Ret tt ->
  (isinstance_list (files a) = false
   /\ snd (run (upload w fuel a)) = [EPrint "No files given to upload"])
  \/ (exists fs hits tmp,
        files a = Py.VList fs
        /\ publish w = inr tt
        /\ snd (run (upload w fuel a)) = full_trace w a fs hits tmp).
Proof.
  intros Hret.
  destruct (upload_cases w fuel a)
    as [[Hr Hl] | [[Hno _] | (fs & hits & tmp & H1 & _ & _ & _ & _ & _ & Hr)]].
  - left. rewrite Hr. now split.
  - now destruct (Hno tt).
  - right. exists fs, hits, tmp. rewrite Hr in Hret |- *. cbn [fst snd] in *.
    split; [exact H1|]. split; [|reflexivity].
    destruct (publish w) as [e|[]]; [discriminate Hret | reflexivity].
Qed.

Lemma upload_returns_in_two_ways_witness :
  (isinstance_list (files (sample_args Py.VNone "tpl-test")) = false
   /\ snd (run (upload (sample_world (Some "secret") 0 []) 6
                  (sample_args Py.VNone "tpl-test")))
      = [EPrint "No files given to upload"])
  \/ (exists fs hits tmp,
        files (sample_args Py.VNone "tpl-test") = Py.VList fs
        /\ publish (sample_world (Some "secret") 0 []) = inr tt
        /\ snd (run (upload (sample_world (Some "secret") 0 []) 6
                       (sample_args Py.VNone "tpl-test")))
           = full_trace (sample_world (Some "secret") 0 [])
               (sample_args Py.VNone "tpl-test") fs hits tmp).
Proof.
  apply (upload_returns_in_two_ways (sample_world (Some "secret") 0 []) 6
           (sample_args Py.VNone "tpl-test")).
  reflexivity.
Defined.

(** ** [upload]: lookup and traversal *)

(** X10. The destination lookup takes the first top-level entry named as the
    template: it answers with a link exactly when some entry has that name,
    and the link is the move link of the first one. *)
Theorem find_url_first_match (tpl url : string) (data : list item) :
  find_url tpl data = Some url <->
  exists before folder after,
    data = (before ++ folder :: after)%list
    /\ (forall it, In it before -> attr_name it <> tpl)
    /\ attr_name folder = tpl
    /\ link_move folder = url.
Proof.
  induction data as [|it data IH]; cbn [find_url].
  - split; [discriminate|]. intros (b & f & a & H & _). now destruct b.
  - destruct (String.eqb_spec (attr_name it) tpl) as [E|N].
    + split.
      * intros H. injection H as <-. exists [], it, data.
        repeat split; [intros ? [] | exact E].
      * intros (b & f & a & H & Hb & Hn & Hu). destruct b as [|x b].
        -- cbn in H. injection H as <- <-. now rewrite Hu.
        -- cbn in H. injection H as <- _. destruct (Hb it (or_introl eq_refl) E).
    + rewrite IH. split.
      * intros (b & f & a & -> & Hb & Hn & Hu). exists (it :: b), f, a.
        repeat split; [|exact Hn|exact Hu].
        intros x [<- | Hx]; [exact N | now apply Hb].
      * intros (b & f & a & H & Hb & Hn & Hu). destruct b as [|x b].
        -- cbn in H. injection H as <- _. now destruct N.
        -- cbn in H. injection H as <- ->. exists b, f, a.
           repeat split; [|exact Hn|exact Hu].
           intros y Hy. apply Hb. now right.
Qed.

Lemma walk_never_returns (w : World) (tpl : string) (loop : item) (data : list item) :
  is_folder loop = true ->
  json_from_url w (link_move loop) = inr data ->
  In loop data ->
  forall fuel items hits t r,
    In loop items ->
    fst (walk w fuel tpl items hits t) <> Ret r.
Proof.
  intros Hk Hjson Hself.
  induction fuel as [|fuel IH]; intros items hits t r Hin; [discriminate|].
  destruct items as [|it items]; [destruct Hin|].
  rewrite walk_cons. destruct (is_folder it) eqn:Hit.
  - rewrite bind_eq. unfold query.
    destruct (json_from_url w (link_move it)) as [e|d] eqn:Hd; [discriminate|].
    apply IH. apply in_or_app. destruct Hin as [-> | Hin]; [|now left].
    right. rewrite Hjson in Hd. now injection Hd as <-.
  - assert (Hin' : In loop items).
    { destruct Hin as [-> | Hin]; [congruence | exact Hin]. }
    destruct (Py.contains tpl (attr_name it)); now apply IH.
Qed.

(** X9. The traversal has no protection against cycles: when a folder that
    lists itself is in the listing behind the traversal root, [upload] never
    gets past the traversal, whatever the number of iterations allowed; the
    subprocess call is all that has happened and no manifest is written. *)
Theorem self_listing_folder_blocks_upload
  (w : World) (a : upload_args) (fs : list string) (data items : list item)
  (url : string) (loop : item) (below : list item) (fuel : nat) :
  Py.truthy_str (resolve_pass w a) = true ->
  files a = Py.VList fs ->
  sp_run w (osf_command w a fs) = inr 0%Z ->
  json_from_url w (url_from_key w TEMPLATEFLOW_PROJECT_KEY) = inr data ->
  find_url (template a) data = Some url ->
  json_from_url w url = inr items ->
  In loop items ->
  is_folder loop = true ->
  json_from_url w (link_move loop) = inr below ->
  In loop below ->
  fst (run (upload w fuel a)) <> Ret tt
  /\ snd (run (upload w fuel a)) = [ERun (osf_command w a fs)].
Proof.
  intros Hp Hf Hrun Hjson Hfind Hroot Hin Hk Hloop Hself.
  unfold run, upload. rewrite Hp, Hf. cbn [negb].
  rewrite (bind_call_ok _ _ 0%Z) by exact Hrun. cbn [Z.eqb negb Datatypes.app].
  rewrite (bind_query_ok _ data) by exact Hjson. rewrite Hfind.
  rewrite (bind_query_ok _ items) by exact Hroot.
  rewrite bind_eq.
  pose proof (walk_trace w (template a) fuel items ["name,link"]
                [ERun (osf_command w a fs)]) as Ht.
  pose proof (fun r => walk_never_returns w (template a) loop below Hk Hloop Hself
                fuel items ["name,link"] [ERun (osf_command w a fs)] r Hin) as Hn.
  destruct (walk w fuel (template a) items ["name,link"]
              [ERun (osf_command w a fs)]) as [[hits|e|] t'];
    cbn [fst snd] in *; subst t'.
  - now destruct (Hn hits).
  - split; [discriminate | reflexivity].
  - split; [discriminate | reflexivity].
Qed.

Lemma self_listing_folder_blocks_upload_witness :
  fst (run (upload cyclic_world 1000 (sample_args (Py.VList []) "tpl-test")))
  <> Ret tt
  /\ snd (run (upload cyclic_world 1000 (sample_args (Py.VList []) "tpl-test")))
     = [ERun (osf_command cyclic_world (sample_args (Py.VList []) "tpl-test") [])].
Proof.
  apply (self_listing_folder_blocks_upload cyclic_world
           (sample_args (Py.VList []) "tpl-test") []
           [sample_folder "tpl-test"]
           [sample_file "tpl-test_T1w.nii.gz"; sample_folder "loop"]
           "https://files.osf.io/move/tpl-test"
           (sample_folder "loop") [sample_folder "loop"] 1000).
  - reflexivity.
  - reflexivity.
  - reflexivity.
  - reflexivity.
  - reflexivity.
  - reflexivity.
  - right. left. reflexivity.
  - reflexivity.
  - reflexivity.
  - left. reflexivity.
Defined.

Lemma forest_size_children (f : list rtree) :
  forest_size f = length f + forest_size (flat_map children f).
Proof.
  induction f as [|[it ch] f IH]; [reflexivity|].
  cbn [flat_map children length]. rewrite forest_size_app.
  change (forest_size (Node it ch :: f))
    with (S (forest_size ch) + forest_size f).
  lia.
Qed.

Lemma describes_children (w : World) (f : list rtree) :
  Forall (Describes w) f -> Forall (Describes w) (flat_map children f).
Proof.
  induction 1 as [|t f Ht Hf IH]; [constructor|].
  cbn [flat_map]. apply Forall_app. split; [|exact IH].
  inversion Ht; subst; [constructor | assumption].
Qed.

Lemma levels_nil (d : nat) : levels d [] = [].
Proof. induction d as [|d IH]; [reflexivity | exact IH]. Qed.

(** The queue works through a first part of itself before anything that
    this part adds: its files give their rows, its folders put their
    children behind the rest. *)
Lemma walk_level (w : World) (tpl : string) :
  forall a b fuel hits t,
    Forall (Describes w) a ->
    walk w (length a + fuel) tpl (map root (a ++ b)) hits t
    = walk w fuel tpl (map root (b ++ flat_map children a))
        (hits ++ map row (filter (file_match tpl) (map root a)))%list t.
Proof.
  induction a as [|[it ch] a IH]; intros b fuel hits t Hd.
  - cbn. now rewrite !app_nil_r.
  - inversion Hd as [|? ? Hnode Ha]; subst.
    change (length (Node it ch :: a) + fuel) with (S (length a + fuel)).
    change (map root ((Node it ch :: a) ++ b)) with (it :: map root (a ++ b)).
    rewrite walk_cons.
    cbn [flat_map children map root filter]. unfold file_match at 1.
    inversion Hnode as [? Hk | ? ? Hk Hjson Hch]; subst; rewrite Hk; cbn [negb andb].
    + cbn [Datatypes.app].
      destruct (Py.contains tpl (attr_name it)); rewrite (IH b fuel _ t Ha).
      * cbn [map]. now rewrite <- app_assoc.
      * reflexivity.
    + rewrite (bind_query_ok _ (map root ch)) by exact Hjson.
      rewrite <- map_app, <- app_assoc, (IH (b ++ ch)%list fuel hits t Ha).
      now rewrite <- app_assoc.
Qed.

Lemma walk_levels (w : World) (tpl : string) :
  forall d f fuel hits t,
    Forall (Describes w) f ->
    forest_size f <= d ->
    forest_size f < fuel ->
    walk w fuel tpl (map root f) hits t
    = (Ret (hits ++ map row (filter (file_match tpl) (levels d f)))%list, t).
Proof.
  induction d as [|d IH]; intros f fuel hits t Hd Hle Hlt.
  - destruct f as [|x f].
    + destruct fuel; [lia|]. rewrite walk_nil. cbn. now rewrite app_nil_r.
    + rewrite forest_size_children in Hle. cbn [length] in Hle. lia.
  - destruct f as [|x f].
    + destruct fuel; [lia|]. rewrite walk_nil. cbn [levels map flat_map].
      rewrite levels_nil. cbn. now rewrite app_nil_r.
    + pose proof (forest_size_children (x :: f)) as Hsz.
      cbn [length] in Hsz.
      assert (E : walk w fuel tpl (map root (x :: f)) hits t
                  = walk w (length (x :: f) + (fuel - length (x :: f))) tpl
                      (map root ((x :: f) ++ [])) hits t).
      { rewrite app_nil_r.
        replace (length (x :: f) + (fuel - length (x :: f))) with fuel
          by (cbn [length]; lia).
        reflexivity. }
      rewrite E, (walk_level w tpl (x :: f) [] _ hits t Hd).
      cbn [Datatypes.app].
      rewrite (IH (flat_map children (x :: f)));
        [| now apply describes_children | lia | cbn [length]; lia].
      cbn [levels]. now rewrite filter_app, map_app, app_assoc.
Qed.

(** X11. The rows of the manifest come in breadth-first order: the matching
    files of the listing behind the traversal root in listing order, then
    those one folder down, and so on level by level. *)
Theorem manifest_rows_are_breadth_first
  (w : World) (fuel : nat) (tpl url : string) (forest : list rtree) :
  json_from_url w url = inr (map root forest) ->
  Forall (Describes w) forest ->
  forest_size forest < fuel ->
  run (items <- query (json_from_url w url) ;;
       walk w fuel tpl items ["name,link"])
  = (Ret ("name,link"
          :: map row (filter (fun it => negb (is_folder it)
                                        && Py.contains tpl (attr_name it))
                        (levels (forest_size forest) forest))),
     []).
Proof.
  intros Hroot Hd Hsz. unfold run.
  rewrite (bind_query_ok _ (map root forest)) by exact Hroot.
  now rewrite (walk_levels w tpl (forest_size forest) forest fuel
                 ["name,link"] [] Hd (Nat.le_refl _) Hsz).
Qed.

Lemma manifest_rows_are_breadth_first_witness :
  run (items <- query (json_from_url (sample_world (Some "secret") 0 [])
                         "https://files.osf.io/move/tpl-test") ;;
       walk (sample_world (Some "secret") 0 []) 6 "tpl-test" items ["name,link"])
  = (Ret ("name,link"
          :: map row (filter (fun it => negb (is_folder it)
                                        && Py.contains "tpl-test" (attr_name it))
                        (levels (forest_size sample_forest) sample_forest))),
     []).
Proof.
  apply (manifest_rows_are_breadth_first (sample_world (Some "secret") 0 []) 6
           "tpl-test" "https://files.osf.io/move/tpl-test" sample_forest).
  - reflexivity.
  - apply sample_forest_described.
  - vm_compute. lia.
Defined.

(** ** [StoreDictKeyPair] *)

Lemma split_length (c : ascii) (s : string) :
  length (split c s) = S (count_char c s).
Proof.
  induction s as [|d s IH]; [reflexivity|].
  cbn [split count_char]. destruct (Ascii.eqb d c).
  - cbn [length]. now rewrite IH.
  - destruct (split c s) as [|h t]; [discriminate IH | exact IH].
Qed.

Lemma split_without (c : ascii) (s : string) :
  count_char c s = 0 -> split c s = [s].
Proof.
  induction s as [|d s IH]; [reflexivity|].
  cbn [split count_char]. destruct (Ascii.eqb d c); [discriminate|].
  intros H. now rewrite (IH H).
Qed.

Lemma split_at (c : ascii) (k v : string) :
  count_char c k = 0 -> split c (k ++ String c v) = k :: split c v.
Proof.
  induction k as [|d k IH]; cbn [split count_char append].
  - intros _. now rewrite Ascii.eqb_refl.
  - destruct (Ascii.eqb d c); [discriminate|].
    intros H. now rewrite (IH H).
Qed.

(** Joining the pieces with the separator gives the string back, and no
    piece contains the separator. *)
Lemma split_pieces (c : ascii) (s : string) :
  String.concat (String c EmptyString) (split c s) = s
  /\ Forall (fun p => count_char c p = 0) (split c s).
Proof.
  induction s as [|d s [IHj IHf]]; [split; [reflexivity | now repeat constructor]|].
  cbn [split]. destruct (Ascii.eqb_spec d c) as [->|Hdc].
  - pose proof (split_length c s) as Hl.
    destruct (split c s) as [|h t]; [discriminate Hl|].
    split; [|now constructor].
    change (String.concat (String c EmptyString) (EmptyString :: h :: t))
      with (String c (String.concat (String c EmptyString) (h :: t))).
    now rewrite IHj.
  - pose proof (split_length c s) as Hl.
    destruct (split c s) as [|h t]; [discriminate Hl|].
    pose proof (Forall_inv IHf) as Hh. pose proof (Forall_inv_tail IHf) as Ht.
    split.
    + rewrite <- IHj. destruct t as [|h' t]; reflexivity.
    + constructor; [|exact Ht]. cbn [count_char].
      destruct (Ascii.eqb_spec d c) as [E|_]; [now destruct Hdc | exact Hh].
Qed.

(** One value of [--kwargs]: unpacked when it has exactly one [=], a
    [ValueError] otherwise. *)
Lemma store_pairs_step (kv : string) (values : list string)
  (rdict : list (string * string)) :
  match count_char "=" kv with
  | 0 => store_pairs (kv :: values) rdict = inl not_enough_values
  | 1 => exists k v,
           kv = k ++ "=" ++ v
           /\ count_char "=" k = 0 /\ count_char "=" v = 0
           /\ store_pairs (kv :: values) rdict
              = store_pairs values (setitem k v rdict)
  | _ => store_pairs (kv :: values) rdict = inl too_many_values
  end.
Proof.
  pose proof (split_length "=" kv) as Hl.
  destruct (split_pieces "=" kv) as [Hj Hf].
  cbn [store_pairs].
  destruct (split "=" kv) as [|k [|v [|x l]]]; cbn [length] in Hl;
    [discriminate Hl | ..];
    injection Hl as Hl; rewrite <- Hl; try reflexivity.
  exists k, v. inversion Hf as [|? ? Hk Hv']; subst.
  inversion Hv' as [|? ? Hv _]; subst.
  repeat split; try assumption; reflexivity.
Qed.

(** X12. The action accepts the values of [--kwargs] exactly when each of
    them contains one [=] and no more. *)
Theorem store_accepts_single_equals (values : list string) :
  (exists rdict, StoreDictKeyPair_call values = inr rdict)
  <-> Forall (fun kv => count_char "=" kv = 1) values.
Proof.
  unfold StoreDictKeyPair_call. generalize (@nil (string * string)).
  induction values as [|kv values IH]; intros d.
  - split; [constructor | intros _; now exists d].
  - pose proof (store_pairs_step kv values d) as Hs.
    destruct (count_char "=" kv) as [|[|n]] eqn:Hc.
    + rewrite Hs. split; [intros [r H]; discriminate H|].
      intros H. inversion H; subst. congruence.
    + destruct Hs as (k & v & _ & _ & _ & ->). rewrite IH.
      split; [intros H; now constructor | intros H; now inversion H].
    + rewrite Hs. split; [intros [r H]; discriminate H|].
      intros H. inversion H; subst. congruence.
Qed.

(** X13. The first value that is not of the form [KEY=VAL] stops the action
    with a [ValueError]: too few values to unpack when it has no [=], too
    many when it has two or more; so a filter value cannot contain [=]. *)
Theorem store_rejects_malformed_value
  (good : list string) (bad : string) (rest : list string) :
  Forall (fun kv => count_char "=" kv = 1) good ->
  count_char "=" bad <> 1 ->
  StoreDictKeyPair_call (good ++ bad :: rest)
  = inl (if Nat.eqb (count_char "=" bad) 0
         then not_enough_values else too_many_values).
Proof.
  intros Hgood Hbad. unfold StoreDictKeyPair_call.
  generalize (@nil (string * string)).
  induction Hgood as [|kv good Hkv _ IH]; intros d; cbn [Datatypes.app].
  - pose proof (store_pairs_step bad rest d) as Hs.
    destruct (count_char "=" bad) as [|[|n]]; [exact Hs | now destruct Hbad | exact Hs].
  - pose proof (store_pairs_step kv (good ++ bad :: rest) d) as Hs.
    rewrite Hkv in Hs. destruct Hs as (k & v & _ & _ & _ & ->). apply IH.
Qed.

Lemma store_rejects_malformed_value_witness :
  StoreDictKeyPair_call (["desc=nomedialwall"] ++ "suffix" :: ["hemi=L"])
  = inl not_enough_values
  /\ StoreDictKeyPair_call ([] ++ "label=a=b" :: []) = inl too_many_values.
Proof.
  split.
  - apply (store_rejects_malformed_value ["desc=nomedialwall"] "suffix" ["hemi=L"]).
    + repeat constructor.
    + discriminate.
  - apply (store_rejects_malformed_value [] "label=a=b" []).
    + constructor.
    + discriminate.
Defined.

Lemma getitem_setitem (k k' v : string) (d : list (string * string)) :
  getitem k (setitem k' v d) = if String.eqb k k' then Some v else getitem k d.
Proof.
  induction d as [|[x y] d IH]; cbn [setitem getitem]; [reflexivity|].
  destruct (String.eqb_spec k' x) as [->|Hx]; cbn [getitem].
  - destruct (String.eqb k x); reflexivity.
  - rewrite IH. destruct (String.eqb_spec k x) as [->|_]; [|reflexivity].
    destruct (String.eqb_spec x k') as [E|_]; [now destruct Hx | reflexivity].
Qed.

Lemma setitem_keys (k v x : string) (d : list (string * string)) :
  In x (map fst (setitem k v d)) <-> x = k \/ In x (map fst d).
Proof.
  induction d as [|[a b] d IH]; cbn [setitem map fst In].
  - intuition congruence.
  - destruct (String.eqb_spec k a) as [->|Hk]; cbn [map fst In].
    + intuition congruence.
    + rewrite IH. intuition congruence.
Qed.

Lemma setitem_nodup (k v : string) (d : list (string * string)) :
  NoDup (map fst d) -> NoDup (map fst (setitem k v d)).
Proof.
  induction d as [|[a b] d IH]; cbn [setitem map fst]; intros H.
  - repeat constructor. intros [].
  - inversion H as [|? ? Hnin Hd]; subst.
    destruct (String.eqb_spec k a) as [->|Hk]; cbn [map fst].
    + now constructor.
    + constructor; [|now apply IH].
      rewrite setitem_keys. intros [E | Hin]; [now destruct Hk | now destruct Hnin].
Qed.

Lemma getitem_app_last (k k' v : string) (l : list (string * string)) :
  getitem k (l ++ [(k', v)])
  = match getitem k l with
    | Some x => Some x
    | None => if String.eqb k k' then Some v else None
    end.
Proof.
  induction l as [|[a b] l IH]; cbn [Datatypes.app getitem]; [reflexivity|].
  destruct (String.eqb k a); [reflexivity | exact IH].
Qed.

Lemma store_pairs_encoded (pairs : list (string * string)) :
  (forall p, In p pairs ->
             count_char "=" (fst p) = 0 /\ count_char "=" (snd p) = 0) ->
  forall d,
    store_pairs (map (fun p => fst p ++ "=" ++ snd p) pairs) d
    = inr (fold_left (fun d p => setitem (fst p) (snd p) d) pairs d).
Proof.
  induction pairs as [|[k v] pairs IH]; intros Hwf d; [reflexivity|].
  destruct (Hwf (k, v) (or_introl eq_refl)) as [Hk Hv]. cbn [fst snd] in *.
  cbn [map store_pairs fold_left fst snd].
  change (k ++ "=" ++ v) with (k ++ String "=" v).
  rewrite (split_at "=" k v Hk), (split_without "=" v Hv).
  apply IH. intros p Hp. apply Hwf. now right.
Qed.

Lemma fold_setitem_getitem (k : string) (pairs : list (string * string)) :
  forall d,
    getitem k (fold_left (fun d p => setitem (fst p) (snd p) d) pairs d)
    = match getitem k (List.rev pairs) with
      | Some v => Some v
      | None => getitem k d
      end.
Proof.
  induction pairs as [|[a b] pairs IH]; intros d; [reflexivity|].
  cbn [fold_left List.rev fst snd]. rewrite IH, getitem_app_last, getitem_setitem.
  destruct (getitem k (List.rev pairs)); [reflexivity|].
  destruct (String.eqb k a); reflexivity.
Qed.

Lemma fold_setitem_nodup (pairs : list (string * string)) :
  forall d,
    NoDup (map fst d) ->
    NoDup (map fst (fold_left (fun d p => setitem (fst p) (snd p) d) pairs d)).
Proof.
  induction pairs as [|p pairs IH]; intros d H; [exact H|].
  cbn [fold_left]. apply IH. now apply setitem_nodup.
Qed.

(** X14. For values [KEY=VAL] with no [=] inside the keys and the values,
    the action stores a dictionary in which every key occurs once and holds
    the value of its last occurrence on the command line. *)
Theorem store_keeps_last_value (pairs : list (string * string)) :
  (forall p, In p pairs ->
             count_char "=" (fst p) = 0 /\ count_char "=" (snd p) = 0) ->
  exists rdict,
    StoreDictKeyPair_call (map (fun p => fst p ++ "=" ++ snd p) pairs) = inr rdict
    /\ NoDup (map fst rdict)
    /\ forall k, getitem k rdict = getitem k (List.rev pairs).
Proof.
  intros Hwf. unfold StoreDictKeyPair_call.
  rewrite (store_pairs_encoded pairs Hwf). eexists. split; [reflexivity|]. split.
  - apply fold_setitem_nodup. constructor.
  - intros k. rewrite fold_setitem_getitem.
    destruct (getitem k (List.rev pairs)); reflexivity.
Qed.

Lemma store_keeps_last_value_witness :
  exists rdict,
    StoreDictKeyPair_call
      (map (fun p => fst p ++ "=" ++ snd p)
         [("desc", "brain"); ("suffix", "dparc"); ("desc", "nomedialwall")])
    = inr rdict
    /\ NoDup (map fst rdict)
    /\ forall k,
         getitem k rdict
         = getitem k (List.rev [("desc", "brain"); ("suffix", "dparc");
                           ("desc", "nomedialwall")]).
Proof.
  apply (store_keeps_last_value
           [("desc", "brain"); ("suffix", "dparc"); ("desc", "nomedialwall")]).
  intros p [<- | [<- | [<- | []]]]; split; reflexivity.
Defined.

(** The sample command line, run: the repeated key keeps its place and
    takes the later value. *)
Example sample_store :
  StoreDictKeyPair_call ["desc=brain"; "suffix=dparc"; "desc=nomedialwall"]
  = inr [("desc", "nomedialwall"); ("suffix", "dparc")].
Proof. reflexivity. Qed.

(** ** [upload]: the password, again *)

(** X15. The password is checked and then not used: two invocations that
    differ only in the non-empty password given as [osf_pass] are the same
    run, with the same [osf] command line. *)
Theorem password_is_only_checked
  (w : World) (fuel : nat) (tpl : string) (fs : Py.value) (f : bool)
  (d m : option string) (p q : string) :
  p <> EmptyString ->
  q <> EmptyString ->
  run (upload w fuel
         {| template := tpl; files := fs; force := f; osf_pass := Some p;
            osf_dest := d; message := m |})
  = run (upload w fuel
           {| template := tpl; files := fs; force := f; osf_pass := Some q;
              osf_dest := d; message := m |}).
Proof.
  intros Hp Hq.
  destruct p as [|c p]; [now destruct Hp|].
  destruct q as [|c' q]; [now destruct Hq|].
  reflexivity.
Qed.

Lemma password_is_only_checked_witness :
  run (upload (sample_world None 0 []) 6
         {| template := "tpl-test"; files := Py.VList ["notes.txt"]; force := true;
            osf_pass := Some "secret"; osf_dest := None; message := None |})
  = run (upload (sample_world None 0 []) 6
           {| template := "tpl-test"; files := Py.VList ["notes.txt"]; force := true;
              osf_pass := Some "other"; osf_dest := None; message := None |}).
Proof.
  apply (password_is_only_checked (sample_world None 0 []) 6 "tpl-test"
           (Py.VList ["notes.txt"]) true None None "secret" "other");
    discriminate.
Defined.
